(** * Habit grid ingestion and reconciliation ([src/Code.js])

    A shallow embedding of the Apps Script pipeline that turns the model's
    answer about a photographed habit grid into writes on the weekly sheet,
    together with the properties of its specification.

    Conventions.
    - A JavaScript string is the list of its UTF-16 code units.
    - A value read from parsed JSON is a [json]; [undefined] is [None].
    - A throwing computation returns [Throw e], a normal one [Return a].
    - Built-ins of the JavaScript runtime and of the Apps Script services
      whose result depends on the host (time zone, number parsing, JSON
      text, the text finder's matching rule, the model provider) are the
      fields of [Host]; the theorems hold for every host, and a reference
      host runs the examples.
    - The argument of [updateSheet] is taken in the shape of the schema
      that the source gives for the model's answer (lines 88-110).
    - The sheet grid itself is unbounded: Sheets' per-sheet limits on the
      number of rows and columns are not modelled.
    - [getHabitMetadata] and the prompt of [callGemini] are left out, no
      property below being about them: [doPost] takes lines 232-242 as a
      parameter, and [callGemini] starts from the text of the response. *)

From Stdlib Require Import QArith.QArith_base.
From stdpp Require Import gmap list strings pretty.
Close Scope Q_scope.
Set Warnings "-register-all".

(** ** JavaScript strings *)

Abbreviation jsstring := (list N).

(** A string literal of the source, as code units. *)
Definition js (s : string) : jsstring :=
  Ascii.N_of_ascii <$> String.list_ascii_of_string s.
Arguments js : simpl never.

(** The characters matched by [\s] and removed by [String.prototype.trim]:
    WhiteSpace and LineTerminator of ECMAScript. *)
Definition isWhiteSpace (c : N) : bool :=
  ((9 <=? c) && (c <=? 13) || (c =? 32) || (c =? 160) || (c =? 5760)
   || (8192 <=? c) && (c <=? 8202) || (c =? 8232) || (c =? 8233)
   || (c =? 8239) || (c =? 8287) || (c =? 12288) || (c =? 65279))%N.

Fixpoint trimStart (s : jsstring) : jsstring :=
  match s with
  | c :: rest => if isWhiteSpace c then trimStart rest else s
  | [] => []
  end.

Definition trimEnd (s : jsstring) : jsstring :=
  reverse (trimStart (reverse s)).

Definition trim (s : jsstring) : jsstring := trimEnd (trimStart s).

(** [stripPrefix eqc p s] is the rest of [s] after the literal [p], when
    [s] starts with [p] up to the character comparison [eqc]. *)
Fixpoint stripPrefix (eqc : N → N → bool) (p s : jsstring) : option jsstring :=
  match p, s with
  | [], _ => Some s
  | a :: p', b :: s' => if eqc a b then stripPrefix eqc p' s' else None
  | _ :: _, [] => None
  end.

(** Character comparison under the [i] flag, for a lower-case ASCII pattern
    character: only the character itself and its ASCII upper case are
    canonicalised to the same code unit. *)
Definition eqIgnoreCase (p c : N) : bool :=
  ((p =? c) || (97 <=? p) && (p <=? 122) && (c =? p - 32))%N.

(** [stripSuffix p s] is [s] without the literal [p] at its end, when [s]
    ends with [p]. *)
Definition stripSuffix (p s : jsstring) : option jsstring :=
  reverse <$> stripPrefix N.eqb (reverse p) (reverse s).

(** [str.split(sep)] for a one-character separator. *)
Fixpoint split (sep : N) (s : jsstring) : list jsstring :=
  match s with
  | [] => [[]]
  | c :: rest =>
      if (c =? sep)%N then [] :: split sep rest
      else match split sep rest with
           | h :: t => (c :: h) :: t
           | [] => [[c]]
           end
  end.

(** [String(n)] for a count. *)
Definition String_nat (n : nat) : jsstring := js (pretty n).

(** ** Values parsed from JSON *)

Inductive json :=
| JNull
| JBool (b : bool)
| JNumber (q : Q)
| JString (s : jsstring)
| JArray (elems : list json)
| JObject (props : list (jsstring * json)).

(** A JavaScript value that came out of [JSON.parse] or out of a property
    read on such a value: [None] is [undefined]. *)
Abbreviation jsval := (option json).
Abbreviation undefined := (@None json).

Inductive exn :=
| EError (message : jsstring)      (* throw new Error(message) *)
| ETypeError (member : jsstring)   (* the runtime: a member read on undefined
                                      or null, or a call of a non-function *)
| ESyntaxError (text : jsstring)   (* JSON.parse on text that is not JSON *)
| ERangeError (method : jsstring)  (* the runtime: toISOString on an invalid
                                      Date *)
| EException (what : jsstring).    (* an Apps Script service refusing a call *)

Inductive completion (A : Type) :=
| Return (a : A)
| Throw (e : exn).
Arguments Return {A} a.
Arguments Throw {A} e.

(** Truthiness, as tested by [!x] and [x || y]. *)
Definition truthy (v : jsval) : bool :=
  match v with
  | None | Some JNull => false
  | Some (JBool b) => b
  | Some (JNumber q) => negb (Qnum q =? 0)%Z
  | Some (JString s) => negb (bool_decide (s = []))
  | Some (JArray _) | Some (JObject _) => true
  end.

(** [a || b]. *)
Definition or_else (a b : jsval) : jsval := if truthy a then a else b.

(** The index denoted by a canonical numeric property key. *)
Fixpoint digitsValue (acc : nat) (s : jsstring) : option nat :=
  match s with
  | [] => Some acc
  | c :: rest =>
      if ((48 <=? c) && (c <=? 57))%N
      then digitsValue (10 * acc + N.to_nat (c - 48)) rest
      else None
  end.

Definition arrayIndex (key : jsstring) : option nat :=
  match key with
  | [] => None
  | [48%N] => Some 0
  | 48%N :: _ => None
  | _ => digitsValue 0 key
  end.

Fixpoint assoc (key : jsstring) (props : list (jsstring * json)) : jsval :=
  match props with
  | [] => None
  | (k, v) :: rest => if bool_decide (k = key) then Some v else assoc key rest
  end.

(** [o.key] and [o[i]] on a value that is neither undefined nor null. The
    keys read by the source (image, base64, data, error, message,
    candidates, content, parts, text, 0) are not inherited from a
    prototype, so only own properties, indices and [length] are looked up. *)
Definition getProp (o : json) (key : jsstring) : jsval :=
  match o with
  | JObject props => assoc key props
  | JArray elems =>
      match arrayIndex key with
      | Some i => elems !! i
      | None =>
          if bool_decide (key = js "length")
          then Some (JNumber (inject_Z (Z.of_nat (length elems))))
          else None
      end
  | JString s =>
      match arrayIndex key with
      | Some i => (λ c, JString [c]) <$> s !! i
      | None =>
          if bool_decide (key = js "length")
          then Some (JNumber (inject_Z (Z.of_nat (length s))))
          else None
      end
  | JNull | JBool _ | JNumber _ => None
  end.

(** A member read [v.key]: a TypeError on undefined and null. *)
Definition member (v : jsval) (key : jsstring) : completion jsval :=
  match v with
  | None | Some JNull => Throw (ETypeError key)
  | Some o => Return (getProp o key)
  end.

(** [Object.keys(o)]: the properties of a parsed object are listed in
    [props] in their enumeration order. *)
Definition Object_keys (o : json) : list jsstring :=
  match o with
  | JObject props => props.*1
  | JArray elems => String_nat <$> seq 0 (length elems)
  | JString s => String_nat <$> seq 0 (length s)
  | _ => []
  end.

(** [a.join(sep)]. *)
Fixpoint join (sep : jsstring) (parts : list jsstring) : jsstring :=
  match parts with
  | [] => []
  | [p] => p
  | p :: rest => p ++ sep ++ join sep rest
  end.

(** ** The weekly sheet *)

Inductive cell :=
| CNumber (q : Q)
| CBool (b : bool)
| CText (s : jsstring)
| CDate (ms : Z).           (* a date cell: its time value in milliseconds *)

(** A sheet: its tab name and its populated cells, by 1-based row and
    column. A cell that is absent is empty. *)
Record Sheet := {
  sheetName : jsstring;
  cells : gmap (positive * positive) cell
}.

Definition setCells (sheet : Sheet) (m : gmap (positive * positive) cell) : Sheet :=
  {| sheetName := sheetName sheet; cells := m |}.

(** [sheet.getLastRow()], [sheet.getLastColumn()]: the last row and column
    that hold content, 0 on an empty sheet. *)
Definition getLastRow (sheet : Sheet) : nat :=
  max_list ((λ kv, Pos.to_nat kv.1.1) <$> map_to_list (cells sheet)).

Definition getLastColumn (sheet : Sheet) : nat :=
  max_list ((λ kv, Pos.to_nat kv.1.2) <$> map_to_list (cells sheet)).

(** [sheet.getDataRange().getValues()]: the rows 1..lastRow by the columns
    1..lastColumn (one empty cell on an empty sheet); [None] is the empty
    string that [getValues] gives for an empty cell. *)
Definition getDataRangeValues (sheet : Sheet) : list (list (option cell)) :=
  (λ r, (λ c, cells sheet !! (Pos.of_succ_nat r, Pos.of_succ_nat c))
          <$> seq 0 (getLastColumn sheet `max` 1))
    <$> seq 0 (getLastRow sheet `max` 1).

(** A rectangle of a sheet, as made by [getRange(row, column, numRows,
    numColumns)]. *)
Record Range := {
  rgRow : positive;
  rgColumn : positive;
  rgNumRows : nat;
  rgNumColumns : nat
}.

Definition getRange (row column : positive) (numRows numColumns : Z) : completion Range :=
  if bool_decide (1 ≤ numRows)%Z && bool_decide (1 ≤ numColumns)%Z
  then Return {| rgRow := row; rgColumn := column;
                 rgNumRows := Z.to_nat numRows;
                 rgNumColumns := Z.to_nat numColumns |}
  else Throw (EException (js "The number of rows and columns in the range must be at least 1.")).

Definition offset (p : positive) (i : nat) : positive :=
  Pos.of_nat (Pos.to_nat p + i).

(** The cells of a range in reading order. *)
Definition rangeCells (rg : Range) : list (positive * positive) :=
  i ← seq 0 (rgNumRows rg);
  (λ j, (offset (rgRow rg) i, offset (rgColumn rg) j)) <$> seq 0 (rgNumColumns rg).

(** ** Exceptions and the two effect layers *)

(** [completion] is the error monad of a function that only computes. *)
#[global] Instance completion_ret : MRet completion := λ A a, Return a.
#[global] Instance completion_bind : MBind completion := λ A B f m,
  match m with
  | Return a => f a
  | Throw e => Throw e
  end.

(** What a request can observe and change besides its response: the rows
    appended to the Log sheet by [log_], and the weekly sheet, if the
    spreadsheet has one. *)
Record World := {
  logRows : list jsstring;
  weeklyView : option Sheet
}.

(** A request handler: it runs in a world, ends in a value or an exception,
    and leaves a world. *)
Definition Handler (A : Type) : Type := World → completion A * World.

#[global] Instance Handler_ret : MRet Handler := λ A a w, (Return a, w).
#[global] Instance Handler_bind : MBind Handler := λ A B f m w,
  match m w with
  | (Return a, w') => f a w'
  | (Throw e, w') => (Throw e, w')
  end.

Definition throw {A} (e : exn) : Handler A := λ w, (Throw e, w).

Definition lift {A} (c : completion A) : Handler A := λ w, (c, w).

(** [log_(msg)], lines 119-122: one more row on the Log sheet. *)
Definition log_ (msg : jsstring) : Handler unit := λ w,
  (Return (), {| logRows := logRows w ++ [msg]; weeklyView := weeklyView w |}).

(** [try { body } catch (error) { handler(error) }]. *)
Definition try_catch {A} (body : Handler A) (handler : exn → Handler A) : Handler A :=
  λ w, match body w with
       | (Return a, w') => (Return a, w')
       | (Throw e, w') => handler e w'
       end.

(** ** The host *)

(** A time value, as given by [getTime()]: [None] is NaN, the time value of
    an invalid Date. *)
Abbreviation timeValue := (option Z).

(** The built-ins whose results the source relies on but does not define. *)
Class Host := {
  (** Numbers of the runtime, with the three operations that
      [parseMmDdYyyy] applies to them: [Number(s)], [x - 1] (where x is
      undefined when the split gave too few parts) and
      [new Date(yyyy, m, dd)], a local time. *)
  number : Type;
  Number_ : jsstring → number;
  minus1 : option number → number;
  newDate : option number → number → option number → timeValue;
  (** Local midnight of the day of a valid time, as [setHours(0, 0, 0, 0)]
      leaves it. *)
  localMidnight : Z → timeValue;
  (** [JSON.parse(text)], [None] when it throws a SyntaxError;
      [JSON.stringify(v)] and string conversion of a defined value. *)
  JSON_parse : jsstring → option json;
  JSON_stringify : json → jsstring;
  ToString : jsval → jsstring;
  (** The message of an error raised by the runtime. *)
  runtimeMessage : exn → jsstring;
  (** The matching rule of a TextFinder made by [createTextFinder(text)]
      with no option set, on the content of one cell ([None]: an empty
      cell). *)
  textFinderMatches : jsstring → option cell → bool;
  (** [UrlFetchApp.fetch(url, options).getContentText()] for the request
      built at lines 292-382 from the image, the habit names and the JSON
      types. *)
  fetchContentText : jsstring → jsstring → jsstring → jsstring
}.

Section Pipeline.
Context `{Host}.

(** [error.toString()]. *)
Definition exn_toString (e : exn) : jsstring :=
  match e with
  | EError message => js "Error: " ++ message
  | ETypeError _ => js "TypeError: " ++ runtimeMessage e
  | ESyntaxError _ => js "SyntaxError: " ++ runtimeMessage e
  | ERangeError _ => js "RangeError: " ++ runtimeMessage e
  | EException what => js "Exception: " ++ what
  end.

Definition parse (text : jsstring) : completion json :=
  match JSON_parse text with
  | Some v => Return v
  | None => Throw (ESyntaxError text)
  end.

(** ** WeekLocator *)

(** [parseMmDdYyyy], lines 137-140. *)
Definition parseMmDdYyyy (str : jsstring) : timeValue :=
  let parts := Number_ <$> split 47 str in
  let mm := parts !! 0%nat in
  let dd := parts !! 1%nat in
  let yyyy := parts !! 2%nat in
  newDate yyyy (minus1 mm) dd.

(** [d.setHours(0, 0, 0, 0)], then [d.getTime()]: an invalid Date stays
    invalid. *)
Definition setHoursMidnight (d : timeValue) : timeValue := d ≫= localMidnight.

(** [d.toISOString()], of which only the failure matters: a RangeError on
    an invalid Date. *)
Definition toISOString (d : timeValue) : completion unit :=
  match d with
  | Some _ => Return ()
  | None => Throw (ERangeError (js "toISOString"))
  end.

(** [d.getTime() === t.getTime()]: NaN is equal to nothing. *)
Definition sameTime (d t : timeValue) : bool :=
  match d, t with
  | Some a, Some b => bool_decide (a = b)
  | _, _ => false
  end.

(** The test of lines 156-159 on one value of the data range, [t] being
    the target already normalised to midnight. *)
Definition isThatDay (t : timeValue) (v : option cell) : bool :=
  match v with
  | Some (CDate ms) => sameTime (setHoursMidnight (Some ms)) t
  | _ => false
  end.

(** The inner loop of line 154, from column index [c] on. *)
Fixpoint scanColumns (t : timeValue) (rowValues : list (option cell)) (c : nat) : option nat :=
  match rowValues with
  | [] => None
  | v :: rest => if isThatDay t v then Some c else scanColumns t rest (S c)
  end.

Record Anchor := { row : positive; column : positive }.

(** The outer loop of line 153, from row index [r] on. *)
Fixpoint scanRows (t : timeValue) (cellValues : list (list (option cell))) (r : nat) : option Anchor :=
  match cellValues with
  | [] => None
  | rowValues :: rest =>
      match scanColumns t rowValues 0 with
      | Some c => Some {| row := Pos.of_succ_nat r; column := Pos.of_succ_nat c |}
      | None => scanRows t rest (S r)
      end
  end.

(** [findFirstDateMatch], lines 145-167; [None] is the null of line 166. *)
Definition findFirstDateMatch (sheet : Sheet) (targetDate : timeValue) : option Anchor :=
  let cellValues := getDataRangeValues sheet in
  let t := setHoursMidnight targetDate in
  scanRows t cellValues 0.

(** ** HabitRowReconciler *)

(** The model's answer, in the shape of the schema of lines 88-110: a week
    label and one entry per habit, whose values are numbers or null.
    A field that is absent is [None]. *)
Record HabitEntry := {
  habit : jsstring;
  values : option (list (option Q))
}.

Record ExtractionResult := {
  week_start_date : option jsstring;
  data : option (list HabitEntry)
}.

Definition jsonOfValue (v : option Q) : json :=
  match v with
  | Some q => JNumber q
  | None => JNull
  end.

Definition jsonOfEntry (item : HabitEntry) : json :=
  JObject ((js "habit", JString (habit item)) ::
           match values item with
           | Some vs => [(js "values", JArray (jsonOfValue <$> vs))]
           | None => []
           end).

Definition jsonOfResult (d : ExtractionResult) : json :=
  JObject (match week_start_date d with
           | Some w => [(js "week_start_date", JString w)]
           | None => []
           end ++
           match data d with
           | Some items => [(js "data", JArray (jsonOfEntry <$> items))]
           | None => []
           end).

(** [range.createTextFinder(text).findNext()] on a fresh finder: the first
    cell of the range, in reading order, that the finder matches. The
    range is a view of the sheet as it is when [findNext] runs. *)
Definition findNext (sheet : Sheet) (rg : Range) (text : jsstring) : option (positive * positive) :=
  List.find (λ p, textFinderMatches text (cells sheet !! p)) (rangeCells rg).

(** Writing one value of the model into a cell: null empties it. *)
Definition setValue (m : gmap (positive * positive) cell) (p : positive * positive) (v : option Q) :=
  match v with
  | Some q => <[p := CNumber q]> m
  | None => delete p m
  end.

Fixpoint setRowValues (m : gmap (positive * positive) cell) (r c : positive) (vs : list (option Q)) :=
  match vs with
  | [] => m
  | v :: rest => setRowValues (setValue m (r, c) v) r (Pos.succ c) rest
  end.

(** [sheet.getRange(r, c, 1, n).setValues([vs])]: Sheets refuses data whose
    width is not that of the range. *)
Definition setValues1 (sheet : Sheet) (r c : positive) (n : nat) (vs : list (option Q)) : completion Sheet :=
  if bool_decide (length vs = n)
  then Return (setCells sheet (setRowValues (cells sheet) r c vs))
  else Throw (EException (js "The number of columns in the data does not match the number of columns in the range.")).

(** The loop of line 453, [while (rowValues.length < 7) rowValues.push(null)],
    run for at most [fuel] iterations. *)
Fixpoint pushNulls (fuel : nat) (rowValues : list (option Q)) : list (option Q) :=
  match fuel with
  | O => rowValues
  | S fuel' =>
      if bool_decide (length rowValues < 7)
      then pushNulls fuel' (rowValues ++ [None])
      else rowValues
  end.

(** Lines 451-453: the seven values written for an entry. (When nothing is
    cut, the pushes lengthen the array that the entry itself holds; nothing
    reads it again.) *)
Definition rowValuesOf (item : HabitEntry) : list (option Q) :=
  let rowValues := default [] (values item) in
  let rowValues := if bool_decide (7 < length rowValues) then take 7 rowValues else rowValues in
  pushNulls 7 rowValues.

(** The body of the forEach, lines 446-457, on the sheet and the counter. *)
Definition reconcileEntry (searchRange : Range) (item : HabitEntry)
    (sheet : Sheet) (updates : nat) : completion nat * Sheet :=
  match findNext sheet searchRange (habit item) with
  | Some habitCell =>
      let r := habitCell.1 in
      match setValues1 sheet r 3 7 (rowValuesOf item) with
      | Return sheet' => (Return (S updates), sheet')
      | Throw e => (Throw e, sheet)
      end
  | None => (Return updates, sheet)
  end.

(** [data.data.forEach(...)], line 445. *)
Fixpoint forEachEntry (searchRange : Range) (items : list HabitEntry)
    (sheet : Sheet) (updates : nat) : completion nat * Sheet :=
  match items with
  | [] => (Return updates, sheet)
  | item :: rest =>
      match reconcileEntry searchRange item sheet updates with
      | (Return updates', sheet') => forEachEntry searchRange rest sheet' updates'
      | (Throw e, sheet') => (Throw e, sheet')
      end
  end.

Definition SHEET_NAME_WEEKLY : jsstring := js "Weekly View".

Definition weekNotFound (w : jsstring) (sheet : Sheet) : jsstring :=
  js "Error: Could not find week starting " ++ w ++ js " in sheet " ++ [34%N]
    ++ sheetName sheet ++ [34%N] ++ js ".".

Definition successMessage (updates : nat) (w : jsstring) : jsstring :=
  js "Success! Updated " ++ String_nat updates ++ js " habits for week of " ++ w.

(** [updateSheet], lines 413-461. [ws] is what
    [getSheetByName(SHEET_NAME_WEEKLY)] gives, [data] the argument, [None]
    when it is null or undefined; the result comes with the weekly sheet
    as the call leaves it. Of the two [Logger.log] lines only the
    evaluation of [targetDate.toISOString()] is kept, for it can throw. *)
Definition updateSheet (ws : option Sheet) (data_ : option ExtractionResult)
    : completion jsstring * option Sheet :=
  match ws with
  | None => (Throw (EError (js "Sheet '" ++ SHEET_NAME_WEEKLY ++ js "' not found.")), ws)
  | Some sheet =>
  match data_ with
  | None => (Throw (EError (js "updateSheet error: data object is null/undefined.")), ws)
  | Some d =>
  match week_start_date d with
  | None | Some [] =>
      (Throw (EError (js "updateSheet error: week_start_date is missing. Full data: "
                      ++ JSON_stringify (jsonOfResult d))), ws)
  | Some w =>
      let targetDate := parseMmDdYyyy w in
      let match_ := findFirstDateMatch sheet targetDate in
      match toISOString targetDate with
      | Throw e => (Throw e, ws)
      | Return _ =>
      match match_ with
      | None => (Return (weekNotFound w sheet), ws)
      | Some match_ =>
          let startRow := row match_ in
          let startColumn := 1%positive in
          let habitColumnIndex := 1%Z in
          let lastRow := getLastRow sheet in
          let rowCount := (Z.of_nat lastRow - Z.pos startRow + 1)%Z in
          match getRange startRow startColumn rowCount habitColumnIndex with
          | Throw e => (Throw e, ws)
          | Return searchRange =>
              match data d with
              | None => (Throw (ETypeError (js "forEach")), ws)
              | Some items =>
                  match forEachEntry searchRange items sheet 0 with
                  | (Return updates, sheet') => (Return (successMessage updates w), Some sheet')
                  | (Throw e, sheet') => (Throw e, Some sheet')
                  end
              end
          end
      end end
  end end end.

(** ** VisionExtractionClient and ResponseSanitizer *)

(** [s.replace(/^```json\s*/i, '')], line 400. *)
Definition replaceJsonFence (s : jsstring) : jsstring :=
  match stripPrefix eqIgnoreCase (js "```json") s with
  | Some rest => trimStart rest
  | None => s
  end.

(** [s.replace(/^```\s*/i, '')], line 401. *)
Definition replaceFence (s : jsstring) : jsstring :=
  match stripPrefix eqIgnoreCase (js "```") s with
  | Some rest => trimStart rest
  | None => s
  end.

(** [s.replace(/```$/i, '')], line 402: without the m flag, [$] is the end
    of the text. *)
Definition replaceTrailingFence (s : jsstring) : jsstring :=
  match stripSuffix (js "```") s with
  | Some rest => rest
  | None => s
  end.

(** Lines 399-403. *)
Definition cleanTextResponse (textResponse : jsstring) : jsstring :=
  trim (replaceTrailingFence (replaceFence (replaceJsonFence textResponse))).

(** The receiver of a String method: the call is a TypeError on anything
    that is not a string (a value parsed from JSON holds no function). *)
Definition stringReceiver (v : jsval) (method : jsstring) : completion jsstring :=
  match v with
  | Some (JString s) => Return s
  | _ => Throw (ETypeError method)
  end.

(** Lines 385-405 of [callGemini], on the text of the HTTP response. *)
Definition readResponse (contentText : jsstring) : completion json :=
  json ← parse contentText;
  error ← member (Some json) (js "error");
  if truthy error then
    message ← member error (js "message");
    Throw (EError (js "Gemini API Error: " ++ ToString message))
  else
    candidates ← member (Some json) (js "candidates");
    candidate ← member candidates (js "0");
    content ← member candidate (js "content");
    parts ← member content (js "parts");
    part ← member parts (js "0");
    textResponse ← member part (js "text");
    text ← stringReceiver textResponse (js "replace");
    parse (cleanTextResponse text).

(** [callGemini], lines 291-411. *)
Definition callGemini (base64Image habitNames jsonTypes : jsstring) : completion json :=
  readResponse (fetchContentText base64Image habitNames jsonTypes).

(** ** ImagePayloadNormalizer *)

(** [getType], lines 173-181. *)
Definition getType (value : jsval) : jsstring :=
  match value with
  | None => js "undefined"
  | Some JNull => js "null"
  | Some (JBool _) => js "boolean"
  | Some (JNumber _) => js "number"
  | Some (JString _) => js "string"
  | Some (JArray _) => js "Array"
  | Some (JObject _) => js "Object"
  end.

(** [typeof v === 'object' && v !== null]. *)
Definition isObject (v : jsval) : bool :=
  match v with
  | Some (JArray _) | Some (JObject _) => true
  | _ => false
  end.

Definition isSubtypeChar (c : N) : bool :=
  ((97 <=? c) && (c <=? 122) || (65 <=? c) && (c <=? 90)
   || (48 <=? c) && (c <=? 57) || (c =? 46) || (c =? 43) || (c =? 45))%N.

Fixpoint skipSubtype (s : jsstring) : jsstring :=
  match s with
  | c :: rest => if isSubtypeChar c then skipSubtype rest else s
  | [] => []
  end.

(** [s.replace(/^data:image\/[a-zA-Z0-9.+-]+;base64,/, '')], line 224. The
    class does not hold the semicolon, so the only candidate match takes
    the longest run of class characters. *)
Definition replaceDataUriPrefix (s : jsstring) : jsstring :=
  match stripPrefix N.eqb (js "data:image/") s with
  | Some (c :: rest) =>
      if isSubtypeChar c then
        match stripPrefix N.eqb (js ";base64,") (skipSubtype rest) with
        | Some payload => payload
        | None => s
        end
      else s
  | _ => s
  end.

(** [String(v)]. *)
Definition String_ (v : jsval) : jsstring :=
  match v with
  | Some (JString s) => s
  | _ => ToString v
  end.

(** [JSON.stringify(v).substring(0, n)]: [JSON.stringify(undefined)] is
    undefined, and reading [substring] on it is a TypeError. *)
Definition stringifySubstring (v : jsval) (n : nat) : completion jsstring :=
  match v with
  | Some j => Return (take n (JSON_stringify j))
  | None => Throw (ETypeError (js "substring"))
  end.

(** Lines 204-229 of [doPost]: from [postData.image] to the Base64 text
    sent to the model. *)
Definition normalizeImage (img : jsval) : Handler jsstring :=
  let base64Image := img in
  let imgRefType := getType base64Image in
  _ ← log_ (js "doPost:RAW TYPE: " ++ imgRefType);
  p ← (if isObject base64Image then
         _ ← log_ (js "doPost:image keys: "
                   ++ join (js ",") (Object_keys (default JNull base64Image)));
         let base64Image :=
           or_else (or_else (base64Image ≫= λ o, getProp o (js "base64"))
                            (base64Image ≫= λ o, getProp o (js "data")))
                   (Some JNull) in
         mret (base64Image, getType base64Image)
       else mret (base64Image, imgRefType));
  let '(base64Image, imgRefType) := p in
  if negb (bool_decide (imgRefType = js "string")) then
    dump ← lift (stringifySubstring img 200);
    _ ← log_ (js "doPost:image payload dump: " ++ dump);
    throw (EError (js "base64Image has wrong type: " ++ imgRefType
                   ++ js " instead of string"))
  else
    let base64Image := trim (replaceDataUriPrefix (String_ base64Image)) in
    let imgRefType := getType (Some (JString base64Image)) in
    _ ← log_ (js "doPost:NORM TYPE: " ++ imgRefType
              ++ js ", NORM LEN: " ++ String_nat (length base64Image));
    mret base64Image.

(** [doPost], lines 192-250. [e] is the body of the request,
    [e.postData.contents], or [None] when there is no event or no post
    data. [normalProcessing] stands for lines 232-242: habit loading,
    extraction and reconciliation, from the normalised image to the result
    text. The value is the text given to [createTextOutput]. *)
Definition doPost (normalProcessing : jsstring → Handler jsstring)
    (e : option jsstring) : Handler jsstring :=
  try_catch
    (_ ← log_ (js "doPost:start");
     raw ← match e with
           | Some contents => mret contents
           | None => throw (EError (js "No data received"))
           end;
     postData ← lift (parse raw);
     img ← lift (member (Some postData) (js "image"));
     base64Image ← normalizeImage img;
     normalProcessing base64Image)
    (λ error,
     _ ← log_ (js "doPost:ERROR: " ++ exn_toString error);
     mret (js "Error: " ++ exn_toString error)).

(** ** Vocabulary of the specification *)

(** The cell at row [r], column [c] holds a date that falls on the day of
    [targetDate]: both are equal once normalised to midnight. *)
Definition dateMatch (sheet : Sheet) (targetDate : timeValue) (r c : positive) : Prop :=
  ∃ ms, cells sheet !! (r, c) = Some (CDate ms)
        ∧ sameTime (setHoursMidnight (Some ms)) (setHoursMidnight targetDate) = true.

(** Reading order: top to bottom, then left to right. *)
Definition before (r' c' r c : positive) : Prop :=
  (r' < r)%positive ∨ (r' = r ∧ (c' < c)%positive).

(** The value window transform in the words of the specification:
    truncate to seven, pad with null up to seven. *)
Definition clamp7 (vs : list (option Q)) : list (option Q) :=
  take 7 vs ++ replicate (7 - length vs) None.

(** The value window: columns 3 to 9. *)
Definition inValueWindow (c : positive) : Prop := (3 ≤ c ∧ c ≤ 9)%positive.

(** The search window: the label column, from [startRow] to the last
    populated row. *)
Definition searchWindow (sheet : Sheet) (startRow : positive) : Range :=
  {| rgRow := startRow; rgColumn := 1;
     rgNumRows := S (getLastRow sheet) - Pos.to_nat startRow;
     rgNumColumns := 1 |}.

(** [labelRow P sheet R o]: [o] is the first row from [R] to the last
    populated row whose label cell satisfies [P], if there is one. *)
Definition labelRow (P : option cell → bool) (sheet : Sheet) (R : positive)
    (o : option positive) : Prop :=
  match o with
  | Some r =>
      (R ≤ r)%positive ∧ Pos.to_nat r ≤ getLastRow sheet
      ∧ P (cells sheet !! (r, 1%positive)) = true
      ∧ ∀ r', (R ≤ r')%positive → (r' < r)%positive →
              P (cells sheet !! (r', 1%positive)) = false
  | None =>
      ∀ r, (R ≤ r)%positive → Pos.to_nat r ≤ getLastRow sheet →
           P (cells sheet !! (r, 1%positive)) = false
  end.

(** A label cell that holds exactly the text [name]. *)
Definition isExactText (name : jsstring) (c : option cell) : bool :=
  match c with
  | Some (CText s) => bool_decide (s = name)
  | _ => false
  end.

(** Writing the seven values of [vs] at row [r], or nothing when there is
    no row. *)
Definition writeWindow (sheet : Sheet) (o : option positive) (vs : list (option Q)) : Sheet :=
  match o with
  | Some r => setCells sheet (setRowValues (cells sheet) r 3 (clamp7 vs))
  | None => sheet
  end.

(** What one entry contributes when its row is looked up on [sheet0], the
    sheet as the request found it. *)
Definition writeEntry (sheet0 : Sheet) (rg : Range) (sheet : Sheet) (item : HabitEntry) : Sheet :=
  writeWindow sheet (fst <$> findNext sheet0 rg (habit item)) (default [] (values item)).

Definition isMatched (sheet0 : Sheet) (rg : Range) (item : HabitEntry) : bool :=
  bool_decide (is_Some (findNext sheet0 rg (habit item))).

Definition countMatched (sheet0 : Sheet) (rg : Range) (items : list HabitEntry) : nat :=
  length (List.filter (isMatched sheet0 rg) items).

(** The three forms of the model's text for one inner text. *)
Definition fencedJson (t : jsstring) : jsstring :=
  js "```json" ++ [10%N] ++ t ++ [10%N] ++ js "```".

Definition fenced (t : jsstring) : jsstring :=
  js "```" ++ [10%N] ++ t ++ [10%N] ++ js "```".

(** An inner text that, white space apart, neither begins nor ends with a
    fence. A JSON text begins with a brace, a bracket, a double quote, a
    minus sign, a digit or the first letter of true, false or null, and
    ends with a brace, a bracket, a double quote, a digit or a letter:
    every JSON text is of this kind ([jsonDelimited] below). *)
Definition fenceFree (t : jsstring) : Prop :=
  stripPrefix N.eqb (js "```") (trim t) = None
  ∧ stripSuffix (js "```") (trim t) = None.

(** The image field in its two wrapped forms. *)
Definition wrapBase64 (s : jsstring) : json := JObject [(js "base64", JString s)].
Definition wrapData (s : jsstring) : json := JObject [(js "data", JString s)].

(** The string that an image value carries: itself, or, for an object, the
    one under [base64] or under [data]. *)
Definition carriesString (img : json) : Prop :=
  match img with
  | JString _ => True
  | JObject props =>
      (∃ s, assoc (js "base64") props = Some (JString s))
      ∨ (∃ s, assoc (js "data") props = Some (JString s))
  | _ => False
  end.

(** The value that is type-checked at line 218. *)
Definition unwrapped (img : jsval) : jsval :=
  if isObject img
  then or_else (or_else (img ≫= λ o, getProp o (js "base64"))
                        (img ≫= λ o, getProp o (js "data")))
               (Some JNull)
  else img.

Definition wrongType (v : jsval) : exn :=
  EError (js "base64Image has wrong type: " ++ getType v ++ js " instead of string").

(** The text at [json.candidates[0].content.parts[0].text], if the path
    leads to a string. *)
Definition textPath (json : json) : option jsstring :=
  match foldl (λ v key, v ≫= λ o, getProp o key) (Some json)
          [js "candidates"; js "0"; js "content"; js "parts"; js "0"; js "text"] with
  | Some (JString s) => Some s
  | _ => None
  end.

End Pipeline.

(** ** Vocabulary for strings and logs *)

Definition allWhiteSpace (w : jsstring) : Prop := Forall (λ c, isWhiteSpace c = true) w.

(** The first character, if any, is not white space. *)
Definition startsClean (s : jsstring) : Prop :=
  match s with
  | c :: _ => isWhiteSpace c = false
  | [] => True
  end.

Definition ticks : jsstring := [96; 96; 96]%N.

(** The first character, if any, is not a backtick. *)
Definition noTickFirst (s : jsstring) : Prop :=
  match s with
  | c :: _ => c ≠ 96%N
  | [] => True
  end.

(** The first and the last character of a JSON text, white space apart
    (RFC 8259: a value is an object, an array, a string, a number or one
    of true, false, null). *)
Definition jsonFirst (c : N) : bool :=
  ((c =? 123) || (c =? 91) || (c =? 34) || (c =? 45) || (48 <=? c) && (c <=? 57)
   || (c =? 116) || (c =? 102) || (c =? 110))%N.

Definition jsonLast (c : N) : bool :=
  ((c =? 125) || (c =? 93) || (c =? 34) || (48 <=? c) && (c <=? 57)
   || (c =? 101) || (c =? 108))%N.

Definition jsonDelimited (t : jsstring) : Prop :=
  match trim t with
  | c :: _ => jsonFirst c = true
  | [] => False
  end
  ∧ match reverse (trim t) with
    | c :: _ => jsonLast c = true
    | [] => False
    end.

(** ** A reference host

    One instance of [Host], on which the examples run: the clock is UTC,
    [Number] reads unsigned decimal integers (the parts of an MM/DD/YYYY
    label), JSON texts are those without exponents and without escapes
    other than for the quote, the backslash and the newline, and the text
    finder has the defaults of the Apps Script reference for [TextFinder]
    (no [matchCase], no [matchEntireCell], no regular expression): it
    matches a text cell that contains the text, whatever the case. *)
Module Ref.

Definition number : Type := option Z.       (* [None] is NaN *)

Definition Number_ (s : jsstring) : number :=
  match trim s with
  | [] => Some 0%Z
  | t => Z.of_nat <$> digitsValue 0 t
  end.

Definition minus1 (x : option number) : number :=
  match x with
  | Some (Some n) => Some (n - 1)%Z
  | _ => None
  end.

Definition msPerDay : Z := 86400000.

(** Days from 1970-01-01 to the given day of the proleptic Gregorian
    calendar; [month] counts from 0 and may lie outside 0..11. *)
Definition daysFromCivil (year month day : Z) : Z :=
  let y := (year + month / 12)%Z in
  let m := (month `mod` 12 + 1)%Z in
  let y := if (m <=? 2)%Z then (y - 1)%Z else y in
  let era := (y / 400)%Z in
  let yoe := (y - era * 400)%Z in
  let mp := if (2 <? m)%Z then (m - 3)%Z else (m + 9)%Z in
  let doy := ((153 * mp + 2) / 5 + day - 1)%Z in
  let doe := (yoe * 365 + yoe / 4 - yoe / 100 + doy)%Z in
  (era * 146097 + doe - 719468)%Z.

Definition newDate (yyyy : option number) (m : number) (dd : option number) : timeValue :=
  match yyyy, m, dd with
  | Some (Some y), Some m, Some (Some d) =>
      let y := if bool_decide (0 ≤ y ≤ 99)%Z then (1900 + y)%Z else y in
      let t := (msPerDay * daysFromCivil y m d)%Z in
      if bool_decide (Z.abs t ≤ 8640000000000000)%Z then Some t else None
  | _, _, _ => None
  end.

Definition localMidnight (ms : Z) : timeValue :=
  Some (ms - ms `mod` msPerDay)%Z.

(** *** JSON text *)

Fixpoint skipJsonSpace (s : jsstring) : jsstring :=
  match s with
  | c :: rest =>
      if ((c =? 32) || (c =? 9) || (c =? 10) || (c =? 13))%N
      then skipJsonSpace rest else s
  | [] => []
  end.

(** The characters of a string literal, after its opening quote. *)
Fixpoint parseChars (s : jsstring) : option (jsstring * jsstring) :=
  match s with
  | [] => None
  | 34%N :: rest => Some ([], rest)
  | 92%N :: c :: rest =>
      let unescaped :=
        if (c =? 110)%N then Some 10%N
        else if ((c =? 34) || (c =? 92) || (c =? 47))%N then Some c
        else None in
      c' ← unescaped; '(str, rest') ← parseChars rest; Some (c' :: str, rest')
  | c :: rest =>
      if (c <? 32)%N then None
      else '(str, rest') ← parseChars rest; Some (c :: str, rest')
  end.

Definition isDigit (c : N) : bool := ((48 <=? c) && (c <=? 57))%N.

Fixpoint spanDigits (s : jsstring) : jsstring * jsstring :=
  match s with
  | c :: rest =>
      if isDigit c then let '(ds, rest') := spanDigits rest in (c :: ds, rest')
      else ([], s)
  | [] => ([], [])
  end.

Definition digitsZ (ds : jsstring) : Z :=
  foldl (λ acc c, 10 * acc + Z.of_N (c - 48))%Z 0%Z ds.

Definition parseNumber (s : jsstring) : option (json * jsstring) :=
  let '(sign, s) := match s with
                    | 45%N :: rest => ((-1)%Z, rest)
                    | _ => (1%Z, s)
                    end in
  let '(int, rest) := spanDigits s in
  match int with
  | [] => None
  | _ =>
      match rest with
      | 46%N :: rest' =>
          let '(frac, rest'') := spanDigits rest' in
          match frac with
          | [] => None
          | _ =>
              let den := (10 ^ Z.of_nat (length frac))%Z in
              Some (JNumber (Qmake (sign * (digitsZ int * den + digitsZ frac))
                                   (Z.to_pos den)), rest'')
          end
      | _ => Some (JNumber (inject_Z (sign * digitsZ int)), rest)
      end
  end.

Fixpoint parseValue (fuel : nat) (s : jsstring) : option (json * jsstring) :=
  match fuel with
  | O => None
  | S fuel =>
      match skipJsonSpace s with
      | 110%N :: 117%N :: 108%N :: 108%N :: rest => Some (JNull, rest)
      | 116%N :: 114%N :: 117%N :: 101%N :: rest => Some (JBool true, rest)
      | 102%N :: 97%N :: 108%N :: 115%N :: 101%N :: rest => Some (JBool false, rest)
      | 34%N :: rest => '(str, rest') ← parseChars rest; Some (JString str, rest')
      | 91%N :: rest =>
          match skipJsonSpace rest with
          | 93%N :: rest' => Some (JArray [], rest')
          | _ => '(elems, rest') ← parseElements fuel rest; Some (JArray elems, rest')
          end
      | 123%N :: rest =>
          match skipJsonSpace rest with
          | 125%N :: rest' => Some (JObject [], rest')
          | _ => '(props, rest') ← parseMembers fuel rest; Some (JObject props, rest')
          end
      | s' => parseNumber s'
      end
  end
with parseElements (fuel : nat) (s : jsstring) : option (list json * jsstring) :=
  match fuel with
  | O => None
  | S fuel =>
      '(v, rest) ← parseValue fuel s;
      match skipJsonSpace rest with
      | 44%N :: rest' => '(vs, rest'') ← parseElements fuel rest'; Some (v :: vs, rest'')
      | 93%N :: rest' => Some ([v], rest')
      | _ => None
      end
  end
with parseMembers (fuel : nat) (s : jsstring) : option (list (jsstring * json) * jsstring) :=
  match fuel with
  | O => None
  | S fuel =>
      match skipJsonSpace s with
      | 34%N :: rest =>
          '(key, rest') ← parseChars rest;
          match skipJsonSpace rest' with
          | 58%N :: rest'' =>
              '(v, rest3) ← parseValue fuel rest'';
              match skipJsonSpace rest3 with
              | 44%N :: rest4 => '(ps, rest5) ← parseMembers fuel rest4; Some ((key, v) :: ps, rest5)
              | 125%N :: rest4 => Some ([(key, v)], rest4)
              | _ => None
              end
          | _ => None
          end
      | _ => None
      end
  end.

Definition JSON_parse (text : jsstring) : option json :=
  '(v, rest) ← parseValue (2 * length text + 2) text;
  match skipJsonSpace rest with
  | [] => Some v
  | _ => None
  end.

Fixpoint fractionDigits (fuel : nat) (rem den : Z) : jsstring :=
  match fuel with
  | O => []
  | S fuel =>
      if (rem =? 0)%Z then []
      else (48 + Z.to_N (10 * rem / den))%N :: fractionDigits fuel (10 * rem `mod` den)%Z den
  end.

Definition numberToString (q : Q) : jsstring :=
  let n := Z.abs (Qnum q) in
  let d := Z.pos (Qden q) in
  (if (Qnum q <? 0)%Z then js "-" else [])
  ++ js (pretty (n / d)%Z)
  ++ match fractionDigits 20 (n `mod` d)%Z d with
     | [] => []
     | ds => js "." ++ ds
     end.

Definition quote (s : jsstring) : jsstring :=
  [34%N] ++ (s ≫= λ c, if ((c =? 34) || (c =? 92))%N then [92%N; c]
                        else if (c =? 10)%N then [92%N; 110%N] else [c])
  ++ [34%N].

Fixpoint JSON_stringify (v : json) : jsstring :=
  match v with
  | JNull => js "null"
  | JBool b => if b then js "true" else js "false"
  | JNumber q => numberToString q
  | JString s => quote s
  | JArray elems => js "[" ++ join (js ",") (JSON_stringify <$> elems) ++ js "]"
  | JObject props =>
      js "{" ++ join (js ",") ((λ kv, quote kv.1 ++ js ":" ++ JSON_stringify kv.2) <$> props)
      ++ js "}"
  end.

Fixpoint toStringJson (v : json) : jsstring :=
  match v with
  | JNull => js "null"
  | JBool b => if b then js "true" else js "false"
  | JNumber q => numberToString q
  | JString s => s
  | JArray elems =>
      join (js ",") ((λ e, match e with JNull => [] | _ => toStringJson e end) <$> elems)
  | JObject _ => js "[object Object]"
  end.

Definition ToString (v : jsval) : jsstring :=
  match v with
  | None => js "undefined"
  | Some j => toStringJson j
  end.

Definition runtimeMessage (e : exn) : jsstring :=
  match e with
  | ETypeError member =>
      js "Cannot read properties of undefined (reading '" ++ member ++ js "')"
  | ESyntaxError _ => js "Unexpected token in JSON"
  | ERangeError _ => js "Invalid time value"
  | EError message => message
  | EException what => what
  end.

(** *** The text finder *)

Definition toLowerAscii (c : N) : N :=
  if ((65 <=? c) && (c <=? 90))%N then (c + 32)%N else c.

Fixpoint includes (text s : jsstring) : bool :=
  match stripPrefix (λ a b, (toLowerAscii a =? toLowerAscii b)%N) text s with
  | Some _ => true
  | None => match s with
            | _ :: rest => includes text rest
            | [] => false
            end
  end.

Definition textFinderMatches (text : jsstring) (c : option cell) : bool :=
  match c with
  | Some (CText s) => includes text s
  | _ => false
  end.

(** A string literal in which the apostrophe stands for the double quote. *)
Definition jsq (s : string) : jsstring :=
  (λ c, if (c =? 39)%N then 34%N else c) <$> js s.

(** The reference host whose model provider answers every request with
    the body [contentText]. *)
Definition host (contentText : jsstring) : Host :=
  Build_Host number Number_ minus1 newDate localMidnight JSON_parse
    JSON_stringify ToString runtimeMessage textFinderMatches
    (λ base64Image habitNames jsonTypes, contentText).

End Ref.

(** ** The scenario of the specification

    The weekly sheet has the date 01/05/2026 at row 10 and the labels of
    three habits below it; the model answers for that week. *)
Module Example.

(** The body of the provider's response: the week of 01/05/2026 and one
    habit, as a text inside a json fence. *)
Definition answer : jsstring :=
  Ref.jsq "{'candidates':[{'content':{'parts':[{'text':'```json\n{\'week_start_date\':\'01/05/2026\',\'data\':[{\'habit\':\'Flossing\',\'values\':[1,0,null]}]}\n```'}]}}]}".

(** A body without candidates. *)
Definition malformed : jsstring := Ref.jsq "{'candidates':[]}".

Definition host : Host := Ref.host answer.

Definition jan5 : Z := 1767571200000.      (* 2026-01-05T00:00:00Z *)

Definition weekly : Sheet :=
  {| sheetName := js "Weekly View";
     cells := list_to_map
       [((10, 1), CText (js "WEEK")); ((10, 2), CDate jan5);
        ((11, 1), CText (js "Weight (lbs)")); ((11, 3), CNumber (Qmake 1913 10));
        ((12, 1), CText (js "Flossing"));
        ((13, 1), CText (js "Run (miles)")); ((13, 9), CNumber (inject_Z 4))]%positive |}.

Definition flossing : HabitEntry :=
  {| habit := js "Flossing";
     values := Some [Some (inject_Z 1); Some (inject_Z 0); None] |}.

Definition yoga : HabitEntry :=
  {| habit := js "Yoga"; values := Some [Some (inject_Z 1)] |}.

(** Ten values: more than a week holds. *)
Definition weight : HabitEntry :=
  {| habit := js "Weight (lbs)";
     values := Some ((λ n, Some (inject_Z (Z.of_nat n))) <$> seq 190 10) |}.

(** A name that is only a part of a label, in another case. *)
Definition run : HabitEntry :=
  {| habit := js "run"; values := Some [Some (inject_Z 5)] |}.

Definition analysis : ExtractionResult :=
  {| week_start_date := Some (js "01/05/2026");
     data := Some [flossing; yoga; weight] |}.

(** An answer for a week that the sheet does not hold. *)
Definition february : ExtractionResult :=
  {| week_start_date := Some (js "02/02/2026");
     data := Some [flossing] |}.

(** The search window of the scenario: rows 10 to 13 of column 1. *)
Definition window : Range := searchWindow weekly 10.

(** The world before the request: nothing logged yet. *)
Definition emptyWorld : World := {| logRows := []; weeklyView := Some weekly |}.

End Example.

(** * Facts *)

(** ** Trimming and fences *)

Lemma trimStart_split s : ∃ w, s = w ++ trimStart s ∧ allWhiteSpace w.
Proof.
  induction s as [|c s (w & Hs & Hw)]; simpl.
  - exists []. split; [done|constructor].
  - destruct (isWhiteSpace c) eqn:Hc.
    + exists (c :: w). split; [simpl; by rewrite <-Hs|by constructor].
    + exists []. split; [done|constructor].
Qed.

Lemma trimStart_clean s : startsClean (trimStart s).
Proof.
  induction s as [|c s IH]; simpl; [done|].
  by destruct (isWhiteSpace c) eqn:Hc.
Qed.

Lemma trimStart_white w s : allWhiteSpace w → trimStart (w ++ s) = trimStart s.
Proof. induction 1 as [|c w Hc _ IH]; simpl; [done|]. by rewrite Hc. Qed.

Lemma trimStart_id s : startsClean s → trimStart s = s.
Proof. destruct s as [|c s]; simpl; [done|]. by intros ->. Qed.

Lemma allWhiteSpace_reverse w : allWhiteSpace w → allWhiteSpace (reverse w).
Proof. unfold allWhiteSpace. by rewrite Forall_reverse. Qed.

Lemma trimEnd_split s : ∃ w, s = trimEnd s ++ w ∧ allWhiteSpace w.
Proof.
  destruct (trimStart_split (reverse s)) as (w & Hs & Hw).
  exists (reverse w). split; [|by apply allWhiteSpace_reverse].
  unfold trimEnd. rewrite <-reverse_app, <-Hs. by rewrite reverse_involutive.
Qed.

Lemma trimEnd_white s w : allWhiteSpace w → trimEnd (s ++ w) = trimEnd s.
Proof.
  intros Hw. unfold trimEnd. rewrite reverse_app.
  by rewrite trimStart_white by by apply allWhiteSpace_reverse.
Qed.

Lemma trimEnd_id s : startsClean (reverse s) → trimEnd s = s.
Proof. intros Hs. unfold trimEnd. by rewrite trimStart_id, reverse_involutive. Qed.

Lemma trimEnd_clean_end s : startsClean (reverse (trimEnd s)).
Proof. unfold trimEnd. rewrite reverse_involutive. apply trimStart_clean. Qed.

Lemma trimEnd_clean_start s : startsClean s → startsClean (trimEnd s).
Proof.
  intros Hs. destruct (trimEnd_split s) as (w & Heq & Hw).
  destruct (trimEnd s) as [|c u]; [done|]. rewrite Heq in Hs. done.
Qed.

(** Every string is its trimmed text between two runs of white space. *)
Lemma trim_split t :
  ∃ w1 w2, t = w1 ++ trim t ++ w2 ∧ allWhiteSpace w1 ∧ allWhiteSpace w2
           ∧ startsClean (trim t) ∧ startsClean (reverse (trim t)).
Proof.
  destruct (trimStart_split t) as (w1 & Ht & Hw1).
  destruct (trimEnd_split (trimStart t)) as (w2 & Hu & Hw2).
  exists w1, w2. unfold trim. split_and!; try done.
  - by rewrite <-Hu.
  - apply trimEnd_clean_start, trimStart_clean.
  - apply trimEnd_clean_end.
Qed.

Lemma trim_between w1 core w2 :
  allWhiteSpace w1 → allWhiteSpace w2 →
  startsClean core → startsClean (reverse core) →
  trim (w1 ++ core ++ w2) = core.
Proof.
  intros Hw1 Hw2 Hs He. unfold trim. rewrite trimStart_white by done.
  destruct core as [|c core]; simpl in *.
  - destruct (trimStart_split w2) as (w & Heq & _).
    assert (trimStart w2 = []) as ->; [|done].
    rewrite <-(app_nil_r w2), trimStart_white by done. done.
  - rewrite Hs. change (c :: core ++ w2) with ((c :: core) ++ w2).
    rewrite trimEnd_white by done. by apply trimEnd_id.
Qed.

Lemma stripPrefix_app p rest : stripPrefix N.eqb p (p ++ rest) = Some rest.
Proof. induction p as [|c p IH]; simpl; [done|]. by rewrite N.eqb_refl. Qed.

Lemma stripPrefix_longer eqc p q s :
  stripPrefix eqc p s = None → stripPrefix eqc (p ++ q) s = None.
Proof.
  revert s. induction p as [|a p IH]; intros s; simpl; [done|].
  destruct s as [|b s]; [done|]. destruct (eqc a b); [apply IH|done].
Qed.

Lemma stripSuffix_app p s : stripSuffix p (s ++ p) = Some s.
Proof.
  unfold stripSuffix. rewrite reverse_app, stripPrefix_app. simpl.
  by rewrite reverse_involutive.
Qed.

Lemma stripPrefix_ticks_ignoreCase s :
  stripPrefix eqIgnoreCase ticks s = stripPrefix N.eqb ticks s.
Proof.
  assert (∀ c, eqIgnoreCase 96 c = (96 =? c)%N) as Heq.
  { intros c. unfold eqIgnoreCase. by rewrite orb_false_r. }
  unfold ticks. destruct s as [|a [|b [|c s]]]; simpl; rewrite ?Heq; done.
Qed.

(** A text that does not begin with a fence does not begin with one when
    followed by a text that does not begin with a backtick. *)
Lemma stripPrefix_ticks_app core rest :
  stripPrefix N.eqb ticks core = None → noTickFirst rest →
  stripPrefix N.eqb ticks (core ++ rest) = None.
Proof.
  unfold ticks.
  destruct core as [|a [|b [|c core]]]; destruct rest as [|d [|e [|f rest]]];
    cbn [stripPrefix app noTickFirst];
    repeat (match goal with
            | |- context [(96 =? ?y)%N] => destruct (N.eqb_spec 96 y); subst
            end); done.
Qed.

Lemma white_noTickFirst w rest : allWhiteSpace w → noTickFirst rest → noTickFirst (w ++ rest).
Proof.
  destruct 1 as [|c w Hc _]; simpl; [done|]. intros _ ->. by vm_compute in Hc.
Qed.

Lemma stripPrefix_ticks_between w1 core w2 :
  allWhiteSpace w1 → allWhiteSpace w2 →
  stripPrefix N.eqb ticks core = None →
  stripPrefix N.eqb ticks (w1 ++ core ++ w2) = None.
Proof.
  intros Hw1 Hw2 Hcore.
  destruct Hw1 as [|c w1 Hc _]; cbn [app].
  - apply stripPrefix_ticks_app; [done|]. rewrite <-(app_nil_r w2).
    by apply white_noTickFirst.
  - unfold ticks. cbn [stripPrefix].
    destruct (N.eqb_spec 96 c) as [<-|]; [by vm_compute in Hc|done].
Qed.

Lemma stripSuffix_None_reverse core :
  stripSuffix ticks core = None → stripPrefix N.eqb ticks (reverse core) = None.
Proof.
  unfold stripSuffix. change (reverse ticks) with ticks.
  by destruct (stripPrefix _ _ _).
Qed.

Lemma stripSuffix_ticks_between w1 core w2 :
  allWhiteSpace w1 → allWhiteSpace w2 →
  stripSuffix ticks core = None →
  stripSuffix ticks (w1 ++ core ++ w2) = None.
Proof.
  intros Hw1 Hw2 Hcore%stripSuffix_None_reverse. unfold stripSuffix.
  change (reverse ticks) with ticks.
  rewrite !reverse_app, <-app_assoc.
  rewrite stripPrefix_ticks_between; auto using allWhiteSpace_reverse.
Qed.

Section Sanitizer.
Variables (w1 core w2 : jsstring).
Hypothesis (Hw1 : allWhiteSpace w1) (Hw2 : allWhiteSpace w2).
Hypothesis (Hstart : startsClean core) (Hend : startsClean (reverse core)).
Hypothesis (Hprefix : stripPrefix N.eqb ticks core = None).
Hypothesis (Hsuffix : stripSuffix ticks core = None).

Lemma replaceFence_raw : replaceFence (w1 ++ core ++ w2) = w1 ++ core ++ w2.
Proof.
  unfold replaceFence. change (js "```") with ticks.
  by rewrite stripPrefix_ticks_ignoreCase, stripPrefix_ticks_between.
Qed.

Lemma replaceJsonFence_raw : replaceJsonFence (w1 ++ core ++ w2) = w1 ++ core ++ w2.
Proof.
  unfold replaceJsonFence. change (js "```json") with (ticks ++ js "json").
  rewrite stripPrefix_longer; [done|].
  by rewrite stripPrefix_ticks_ignoreCase, stripPrefix_ticks_between.
Qed.

Lemma cleanTextResponse_raw : cleanTextResponse (w1 ++ core ++ w2) = core.
Proof.
  unfold cleanTextResponse. rewrite replaceJsonFence_raw, replaceFence_raw.
  unfold replaceTrailingFence. change (js "```") with ticks.
  rewrite stripSuffix_ticks_between by done. by apply trim_between.
Qed.

(** What is left of a fenced text once the opening fence and the white
    space after it are gone. *)
Lemma trimStart_body :
  trimStart ([10%N] ++ (w1 ++ core ++ w2) ++ [10%N] ++ ticks) =
    if bool_decide (core = []) then ticks else core ++ w2 ++ [10%N] ++ ticks.
Proof.
  assert (allWhiteSpace [10%N]) as Hnl by (by repeat constructor).
  rewrite trimStart_white by done.
  rewrite <-!app_assoc, trimStart_white by done.
  case_bool_decide as Hcore.
  - subst core. simpl. by rewrite trimStart_white by done.
  - destruct core as [|c core']; [done|]. simpl in *. by rewrite Hstart.
Qed.

Lemma trailing_body :
  trim (replaceTrailingFence (core ++ w2 ++ [10%N] ++ ticks)) = core.
Proof.
  unfold replaceTrailingFence. change (js "```") with ticks.
  rewrite !app_assoc, stripSuffix_app, <-app_assoc.
  rewrite <-(app_nil_l (core ++ _)). apply trim_between; try done.
  - constructor.
  - apply Forall_app. split; [done|by repeat constructor].
Qed.

Lemma cleanTextResponse_fencedJson :
  cleanTextResponse (fencedJson (w1 ++ core ++ w2)) = core.
Proof.
  unfold cleanTextResponse, fencedJson.
  assert (replaceJsonFence (js "```json" ++ [10%N] ++ (w1 ++ core ++ w2) ++ [10%N] ++ js "```")
          = trimStart ([10%N] ++ (w1 ++ core ++ w2) ++ [10%N] ++ ticks)) as ->.
  { unfold replaceJsonFence.
    assert (∀ rest, stripPrefix eqIgnoreCase (js "```json") (js "```json" ++ rest) = Some rest)
      as -> by done. done. }
  rewrite trimStart_body. case_bool_decide as Hcore.
  - subst core. done.
  - unfold replaceFence. change (js "```") with ticks.
    rewrite stripPrefix_ticks_ignoreCase, stripPrefix_ticks_app; [apply trailing_body|done|].
    apply white_noTickFirst; [done|]. simpl. done.
Qed.

Lemma cleanTextResponse_fenced :
  cleanTextResponse (fenced (w1 ++ core ++ w2)) = core.
Proof.
  unfold cleanTextResponse, fenced.
  assert (∀ rest, replaceJsonFence (js "```" ++ [10%N] ++ rest) = js "```" ++ [10%N] ++ rest)
    as -> by done.
  assert (∀ rest, replaceFence (js "```" ++ [10%N] ++ rest) = trimStart ([10%N] ++ rest))
    as -> by done.
  change (js "```") with ticks.
  rewrite trimStart_body. case_bool_decide as Hcore.
  - subst core. done.
  - apply trailing_body.
Qed.
End Sanitizer.

Lemma jsonDelimited_fenceFree t : jsonDelimited t → fenceFree t.
Proof.
  intros [Hfirst Hlast]. split.
  - destruct (trim t) as [|c core]; [done|].
    change (js "```") with ticks. unfold ticks. cbn [stripPrefix].
    destruct (N.eqb_spec 96 c) as [<-|]; [by vm_compute in Hfirst|done].
  - unfold stripSuffix. change (reverse (js "```")) with ticks.
    destruct (reverse (trim t)) as [|c core]; [done|].
    unfold ticks. cbn [stripPrefix].
    destruct (N.eqb_spec 96 c) as [<-|]; [by vm_compute in Hlast|done].
Qed.

Section Facts.
Context `{Host}.

(** ** The scan of the data range *)

Lemma scanColumns_Some t rowValues c0 c :
  scanColumns t rowValues c0 = Some c →
  ∃ i v, c = c0 + i ∧ rowValues !! i = Some v ∧ isThatDay t v = true
         ∧ ∀ j w, j < i → rowValues !! j = Some w → isThatDay t w = false.
Proof.
  revert c0. induction rowValues as [|v rest IH]; intros c0; simpl; [done|].
  destruct (isThatDay t v) eqn:Hv.
  - intros [= <-]. exists 0, v. split_and!; [lia|done|done|]. intros; lia.
  - intros (i & v' & -> & Hi & Hv' & Hlt)%IH.
    exists (S i), v'. split_and!; [lia|done|done|].
    intros [|j] w Hj; simpl; [by intros [= <-]|]. apply Hlt. lia.
Qed.

Lemma scanColumns_None t rowValues c0 :
  scanColumns t rowValues c0 = None →
  ∀ i v, rowValues !! i = Some v → isThatDay t v = false.
Proof.
  revert c0. induction rowValues as [|v rest IH]; intros c0; simpl; [done|].
  destruct (isThatDay t v) eqn:Hv; [done|].
  intros Hn [|i] w; simpl; [by intros [= <-]|]. by eapply IH.
Qed.

Lemma scanRows_Some t cellValues r0 m :
  scanRows t cellValues r0 = Some m →
  ∃ i j rowValues v,
    row m = Pos.of_succ_nat (r0 + i) ∧ column m = Pos.of_succ_nat j
    ∧ cellValues !! i = Some rowValues ∧ rowValues !! j = Some v
    ∧ isThatDay t v = true
    ∧ (∀ j' w, j' < j → rowValues !! j' = Some w → isThatDay t w = false)
    ∧ (∀ i' rv j' w, i' < i → cellValues !! i' = Some rv → rv !! j' = Some w →
         isThatDay t w = false).
Proof.
  revert r0. induction cellValues as [|rv rest IH]; intros r0; simpl; [done|].
  destruct (scanColumns t rv 0) as [c|] eqn:Hc.
  - intros [= <-]. apply scanColumns_Some in Hc as (j & v & -> & Hj & Hv & Hlt).
    exists 0, j, rv, v. simpl. rewrite Nat.add_0_r.
    split_and!; try done. intros; lia.
  - intros (i & j & rv' & v & Hr & Hcol & Hi & Hj & Hv & Hlt & Hrows)%IH.
    exists (S i), j, rv', v. split_and!; try done.
    + rewrite Hr. f_equal. lia.
    + intros [|i'] rv'' j' w Hlt'; simpl.
      * intros [= <-]. by eapply scanColumns_None.
      * apply Hrows. lia.
Qed.

Lemma scanRows_None t cellValues r0 :
  scanRows t cellValues r0 = None →
  ∀ i rv j w, cellValues !! i = Some rv → rv !! j = Some w → isThatDay t w = false.
Proof.
  revert r0. induction cellValues as [|rv rest IH]; intros r0; simpl; [done|].
  destruct (scanColumns t rv 0) as [c|] eqn:Hc; [done|].
  intros Hn [|i] rv' j w; simpl.
  - intros [= <-]. by eapply scanColumns_None.
  - by eapply IH.
Qed.

Lemma getLastRow_ge sheet r c v :
  cells sheet !! (r, c) = Some v → Pos.to_nat r ≤ getLastRow sheet.
Proof.
  intros Hv. apply max_list_elem_of_le.
  apply list_elem_of_fmap. exists ((r, c), v). split; [done|].
  by apply elem_of_map_to_list.
Qed.

Lemma getLastColumn_ge sheet r c v :
  cells sheet !! (r, c) = Some v → Pos.to_nat c ≤ getLastColumn sheet.
Proof.
  intros Hv. apply max_list_elem_of_le.
  apply list_elem_of_fmap. exists ((r, c), v). split; [done|].
  by apply elem_of_map_to_list.
Qed.

Lemma getDataRangeValues_lookup sheet i j rv w :
  getDataRangeValues sheet !! i = Some rv → rv !! j = Some w →
  w = cells sheet !! (Pos.of_succ_nat i, Pos.of_succ_nat j).
Proof.
  unfold getDataRangeValues. rewrite list_lookup_fmap.
  destruct (seq 0 _ !! i) as [r|] eqn:Hr; [|done]. simpl. intros [= <-].
  rewrite list_lookup_fmap.
  destruct (seq 0 _ !! j) as [c|] eqn:Hc; [|done]. simpl. intros [= <-].
  apply lookup_seq in Hr as [-> _]. apply lookup_seq in Hc as [-> _]. done.
Qed.

Lemma getDataRangeValues_covers sheet r c v :
  cells sheet !! (r, c) = Some v →
  ∃ rv, getDataRangeValues sheet !! (Pos.to_nat r - 1) = Some rv
        ∧ rv !! (Pos.to_nat c - 1) = Some (cells sheet !! (r, c)).
Proof.
  intros Hv.
  pose proof (getLastRow_ge _ _ _ _ Hv). pose proof (getLastColumn_ge _ _ _ _ Hv).
  unfold getDataRangeValues. setoid_rewrite list_lookup_fmap.
  rewrite (lookup_seq_lt _ _ (Pos.to_nat r - 1)); [|lia]. simpl.
  eexists; split; [done|]. rewrite list_lookup_fmap.
  rewrite (lookup_seq_lt _ _ (Pos.to_nat c - 1)); [|lia]. simpl.
  replace (Pos.of_succ_nat (Pos.to_nat r - 1)) with r by lia.
  by replace (Pos.of_succ_nat (Pos.to_nat c - 1)) with c by lia.
Qed.

Lemma isThatDay_dateMatch sheet targetDate r c :
  isThatDay (setHoursMidnight targetDate) (cells sheet !! (r, c)) = true
  ↔ dateMatch sheet targetDate r c.
Proof.
  unfold dateMatch, isThatDay. split.
  - destruct (cells sheet !! (r, c)) as [[]|]; try done. eauto.
  - by intros (ms & -> & ?).
Qed.

Lemma findFirstDateMatch_Some sheet targetDate m :
  findFirstDateMatch sheet targetDate = Some m →
  dateMatch sheet targetDate (row m) (column m).
Proof.
  unfold findFirstDateMatch.
  intros (i & j & rv & v & Hr & Hc & Hi & Hj & Hv & _)%scanRows_Some.
  simpl in Hr. rewrite Hr, Hc. apply isThatDay_dateMatch.
  by rewrite <-(getDataRangeValues_lookup _ _ _ _ _ Hi Hj).
Qed.

Lemma findFirstDateMatch_None sheet targetDate :
  findFirstDateMatch sheet targetDate = None →
  ∀ r c, ¬ dateMatch sheet targetDate r c.
Proof.
  unfold findFirstDateMatch. intros Hscan r c Hm.
  pose proof Hm as (ms & Hcell & _).
  apply getDataRangeValues_covers in Hcell as (rv & Hi & Hj).
  apply isThatDay_dateMatch in Hm.
  by rewrite (scanRows_None _ _ _ Hscan _ _ _ _ Hi Hj) in Hm.
Qed.

(** ** The value window *)

Lemma pushNulls_pad fuel l :
  7 - length l ≤ fuel → pushNulls fuel l = l ++ replicate (7 - length l) None.
Proof.
  revert l. induction fuel as [|fuel IH]; intros l Hf; simpl.
  - replace (7 - length l) with 0 by lia. by rewrite app_nil_r.
  - case_bool_decide as Hlen.
    + rewrite IH; rewrite length_app; simpl; [|lia].
      rewrite <-app_assoc. f_equal.
      replace (7 - length l) with (S (7 - (length l + 1))) by lia. done.
    + replace (7 - length l) with 0 by lia. by rewrite app_nil_r.
Qed.

Lemma rowValuesOf_clamp7 item :
  rowValuesOf item = clamp7 (default [] (values item)).
Proof.
  unfold rowValuesOf, clamp7. set (vs := default [] (values item)).
  case_bool_decide as Hlen.
  - rewrite pushNulls_pad; rewrite length_take; [|lia].
    by replace (7 - 7 `min` length vs) with (7 - length vs) by lia.
  - rewrite pushNulls_pad by lia. by rewrite take_ge by lia.
Qed.

Lemma clamp7_length vs : length (clamp7 vs) = 7.
Proof. unfold clamp7. rewrite length_app, length_take, length_replicate. lia. Qed.

Lemma setRowValues_lookup m r c vs r' c' :
  setRowValues m r c vs !! (r', c') =
    if bool_decide (r' = r ∧ Pos.to_nat c ≤ Pos.to_nat c' < Pos.to_nat c + length vs)
    then CNumber <$> nth (Pos.to_nat c' - Pos.to_nat c) vs None
    else m !! (r', c').
Proof.
  revert m c. induction vs as [|v rest IH]; intros m c; simpl.
  - rewrite bool_decide_eq_false_2; [done|lia].
  - rewrite IH. repeat case_bool_decide; try lia.
    + destruct (Pos.to_nat c' - Pos.to_nat c) as [|k] eqn:Hk; [lia|].
      f_equal. f_equal. lia.
    + destruct (Pos.to_nat c' - Pos.to_nat c) as [|k] eqn:Hk; [|lia].
      assert (c' = c) as -> by lia. destruct_and!; subst.
      unfold setValue. destruct v; simpl; [by rewrite lookup_insert_eq|by rewrite lookup_delete_eq].
    + unfold setValue. destruct v; [rewrite lookup_insert_ne|rewrite lookup_delete_ne]; try done.
      all: intros [= -> ->]; lia.
Qed.

Lemma find_first {A} (f : A → bool) (l : list A) x :
  List.find f l = Some x →
  ∃ i, l !! i = Some x ∧ f x = true ∧ ∀ j y, j < i → l !! j = Some y → f y = false.
Proof.
  induction l as [|a l IH]; simpl; [done|].
  destruct (f a) eqn:Ha.
  - intros [= <-]. exists 0. split_and!; [done|done|]. intros; lia.
  - intros (i & Hi & Hx & Hlt)%IH. exists (S i). split_and!; [done|done|].
    intros [|j] y Hj; simpl; [by intros [= <-]|]. apply Hlt. lia.
Qed.

Lemma find_none {A} (f : A → bool) (l : list A) :
  List.find f l = None → ∀ i y, l !! i = Some y → f y = false.
Proof.
  induction l as [|a l IH]; simpl; [done|].
  destruct (f a) eqn:Ha; [done|].
  intros Hn [|i] y; simpl; [by intros [= <-]|]. by apply IH.
Qed.

Lemma find_ext_in {A} (f g : A → bool) (l : list A) :
  (∀ x, x ∈ l → f x = g x) → List.find f l = List.find g l.
Proof.
  induction l as [|a l IH]; simpl; [done|]. intros Hfg.
  rewrite (Hfg a) by left. destruct (g a); [done|].
  apply IH. intros x Hx. apply Hfg. by right.
Qed.

Lemma rangeCells_window sheet R :
  rangeCells (searchWindow sheet R) =
    (λ i, (offset R i, 1%positive)) <$> seq 0 (S (getLastRow sheet) - Pos.to_nat R).
Proof.
  unfold rangeCells, searchWindow. simpl.
  induction (seq 0 _) as [|i l IH]; [done|].
  rewrite fmap_cons, <-IH. done.
Qed.

Lemma offset_to_nat p i : Pos.to_nat (offset p i) = Pos.to_nat p + i.
Proof. unfold offset. rewrite Nat2Pos.id; lia. Qed.

Lemma rangeCells_window_lookup sheet R i p :
  rangeCells (searchWindow sheet R) !! i = Some p →
  p = (offset R i, 1%positive) ∧ Pos.to_nat R + i ≤ getLastRow sheet.
Proof.
  rewrite rangeCells_window, list_lookup_fmap.
  destruct (seq 0 _ !! i) as [k|] eqn:Hk; [|done]. simpl. intros [= <-].
  apply lookup_seq in Hk as [-> Hlt]. split; [done|lia].
Qed.

Lemma rangeCells_window_covers sheet R r :
  Pos.to_nat R ≤ Pos.to_nat r ≤ getLastRow sheet →
  rangeCells (searchWindow sheet R) !! (Pos.to_nat r - Pos.to_nat R) = Some (r, 1%positive).
Proof.
  intros Hr. rewrite rangeCells_window, list_lookup_fmap.
  rewrite lookup_seq_lt by lia. simpl. do 2 f_equal.
  apply Pos2Nat.inj. rewrite offset_to_nat. lia.
Qed.

Lemma findNext_window_agree sheet0 R s t :
  (∀ r, cells s !! (r, 1%positive) = cells sheet0 !! (r, 1%positive)) →
  findNext s (searchWindow sheet0 R) t = findNext sheet0 (searchWindow sheet0 R) t.
Proof.
  intros Hcol. unfold findNext. apply find_ext_in.
  intros p (i & Hi)%list_elem_of_lookup.
  apply rangeCells_window_lookup in Hi as [-> _]. by rewrite Hcol.
Qed.

Lemma writeEntry_lookup sheet0 rg s item r c :
  cells (writeEntry sheet0 rg s item) !! (r, c) =
    match findNext sheet0 rg (habit item) with
    | Some habitCell =>
        if bool_decide (r = habitCell.1 ∧ 3 ≤ Pos.to_nat c ≤ 9)
        then CNumber <$> nth (Pos.to_nat c - 3) (clamp7 (default [] (values item))) None
        else cells s !! (r, c)
    | None => cells s !! (r, c)
    end.
Proof.
  unfold writeEntry. destruct (findNext _ _ _) as [habitCell|]; [|done].
  simpl. rewrite setRowValues_lookup, clamp7_length.
  change (Pos.to_nat 3) with 3.
  repeat case_bool_decide; try done; lia.
Qed.

Lemma writeEntry_label sheet0 rg s item r :
  cells (writeEntry sheet0 rg s item) !! (r, 1%positive) = cells s !! (r, 1%positive).
Proof.
  rewrite writeEntry_lookup. destruct (findNext _ _ _); [|done].
  rewrite bool_decide_eq_false_2; [done|]. change (Pos.to_nat 1) with 1. lia.
Qed.

Lemma forEachEntry_run sheet0 R items s u :
  (∀ r, cells s !! (r, 1%positive) = cells sheet0 !! (r, 1%positive)) →
  forEachEntry (searchWindow sheet0 R) items s u =
    (Return (u + countMatched sheet0 (searchWindow sheet0 R) items),
     foldl (writeEntry sheet0 (searchWindow sheet0 R)) s items).
Proof.
  revert s u. induction items as [|item rest IH]; intros s u Hcol; simpl.
  - unfold countMatched. simpl. by rewrite Nat.add_0_r.
  - unfold reconcileEntry, countMatched, isMatched, writeEntry at 2. simpl.
    rewrite (findNext_window_agree _ _ _ _ Hcol).
    destruct (findNext sheet0 _ (habit item)) as [habitCell|] eqn:Hfind.
    + unfold setValues1. rewrite rowValuesOf_clamp7, clamp7_length.
      rewrite bool_decide_eq_true_2 by done.
      rewrite IH.
      * rewrite bool_decide_eq_true_2 by eauto. simpl.
        unfold countMatched, isMatched. do 2 f_equal. lia.
      * intros r. rewrite <-Hcol. simpl. rewrite setRowValues_lookup.
        rewrite bool_decide_eq_false_2; [done|]. change (Pos.to_nat 1) with 1.
        change (Pos.to_nat 3) with 3. lia.
    + rewrite IH by done. rewrite bool_decide_eq_false_2; [done|].
      by intros [? [=]].
Qed.
Lemma foldl_writeEntry_label sheet0 rg items s r :
  cells (foldl (writeEntry sheet0 rg) s items) !! (r, 1%positive) = cells s !! (r, 1%positive).
Proof.
  revert s. induction items as [|item rest IH]; intros s; simpl; [done|].
  by rewrite IH, writeEntry_label.
Qed.

(** A cell of the result either is as it was or was written for an entry
    whose label was found in its row. *)
Lemma foldl_writeEntry_lookup sheet0 rg items s r c :
  cells (foldl (writeEntry sheet0 rg) s items) !! (r, c) = cells s !! (r, c)
  ∨ (3 ≤ Pos.to_nat c ≤ 9
     ∧ ∃ item habitCell, item ∈ items
         ∧ findNext sheet0 rg (habit item) = Some habitCell ∧ habitCell.1 = r).
Proof.
  revert s. induction items as [|item rest IH]; intros s; simpl; [by left|].
  destruct (IH (writeEntry sheet0 rg s item)) as [-> | (Hc & item' & hc & Hin & Hf & Hr)].
  - rewrite writeEntry_lookup.
    destruct (findNext sheet0 rg (habit item)) as [habitCell|] eqn:Hfind; [|by left].
    case_bool_decide as Hw; [|by left].
    right. split; [lia|]. exists item, habitCell. split_and!; [left|done|by destruct Hw as [-> _]].
  - right. split; [done|]. exists item', hc. split_and!; [by right|done|done].
Qed.

Lemma foldl_writeEntry_matched sheet0 rg items s :
  foldl (writeEntry sheet0 rg) s items =
    foldl (writeEntry sheet0 rg) s (List.filter (isMatched sheet0 rg) items).
Proof.
  revert s. induction items as [|item rest IH]; intros s; simpl; [done|].
  destruct (isMatched _ _ item) eqn:Hmatch; simpl; [apply IH|].
  rewrite <-IH. f_equal. unfold writeEntry.
  unfold isMatched in Hmatch. apply bool_decide_eq_false in Hmatch.
  destruct (findNext _ _ _); [|done]. destruct Hmatch. eauto.
Qed.

Lemma findNext_window sheet R text :
  labelRow (textFinderMatches text) sheet R
           (fst <$> findNext sheet (searchWindow sheet R) text)
  ∧ ∀ habitCell, findNext sheet (searchWindow sheet R) text = Some habitCell →
                 habitCell.2 = 1%positive.
Proof.
  unfold findNext.
  destruct (List.find _ _) as [p|] eqn:Hfind; simpl.
  - apply find_first in Hfind as (i & Hi & Hp & Hlt).
    apply rangeCells_window_lookup in Hi as [-> Hi]. simpl in *.
    pose proof (offset_to_nat R i) as Hoff.
    split; [|by intros ? [= <-]]. split_and!; [lia|lia|done|].
    intros r' HR Hr'.
    apply (Hlt (Pos.to_nat r' - Pos.to_nat R) (r', 1%positive)); [lia|].
    apply rangeCells_window_covers. lia.
  - split; [|done]. intros r HR Hr.
    apply (find_none _ _ Hfind (Pos.to_nat r - Pos.to_nat R) (r, 1%positive)).
    apply rangeCells_window_covers. lia.
Qed.

Lemma getRange_window sheet R :
  Pos.to_nat R ≤ getLastRow sheet →
  getRange R 1 (Z.of_nat (getLastRow sheet) - Z.pos R + 1) 1 = Return (searchWindow sheet R).
Proof.
  intros HR. unfold getRange, searchWindow.
  rewrite !bool_decide_eq_true_2 by lia. simpl. do 2 f_equal. lia.
Qed.

Lemma anchor_populated sheet targetDate m :
  findFirstDateMatch sheet targetDate = Some m →
  Pos.to_nat (row m) ≤ getLastRow sheet.
Proof.
  intros (ms & Hcell & _)%findFirstDateMatch_Some. by eapply getLastRow_ge.
Qed.

(** Only a valid date is found on the sheet. *)
Lemma anchor_valid sheet targetDate m :
  findFirstDateMatch sheet targetDate = Some m → toISOString targetDate = Return ().
Proof.
  intros (ms & _ & Hsame)%findFirstDateMatch_Some.
  destruct targetDate; [done|]. simpl in Hsame.
  by destruct (localMidnight ms).
Qed.

(** The run of [updateSheet] once the week is found. *)
Lemma updateSheet_found sheet d w items m :
  week_start_date d = Some w → w ≠ [] → data d = Some items →
  findFirstDateMatch sheet (parseMmDdYyyy w) = Some m →
  updateSheet (Some sheet) (Some d) =
    (Return (successMessage (countMatched sheet (searchWindow sheet (row m)) items) w),
     Some (foldl (writeEntry sheet (searchWindow sheet (row m))) sheet items)).
Proof.
  intros Hw Hne Hitems Hm. unfold updateSheet. rewrite Hw.
  destruct w as [|ch w']; [done|]. rewrite Hm, (anchor_valid _ _ _ Hm).
  rewrite getRange_window by by eapply anchor_populated.
  rewrite Hitems, forEachEntry_run by done. done.
Qed.

(** A week start that does not parse to a date stops the call at line
    428, before anything is written. *)
Lemma updateSheet_invalid_date sheet d w :
  week_start_date d = Some w → w ≠ [] → parseMmDdYyyy w = None →
  updateSheet (Some sheet) (Some d) = (Throw (ERangeError (js "toISOString")), Some sheet).
Proof.
  intros Hw Hne Hinvalid. unfold updateSheet. rewrite Hw.
  destruct w as [|ch w']; [done|]. by rewrite Hinvalid.
Qed.

(** ** The properties of the specification *)


(** C2. When the week start parses to a date and no cell of the weekly
    sheet holds a date on that day, [updateSheet] does not throw: it
    returns the text that names the week and the sheet, and the sheet is
    left as it was. (The specification requires the week start to parse as
    a valid calendar date; on an invalid Date line 428 throws.) *)
Theorem updateSheet_week_not_found sheet d w t :
  week_start_date d = Some w → w ≠ [] →
  parseMmDdYyyy w = Some t →
  (∀ r c, ¬ dateMatch sheet (parseMmDdYyyy w) r c) →
  updateSheet (Some sheet) (Some d) =
    (Return (js "Error: Could not find week starting " ++ w ++ js " in sheet "
             ++ [34%N] ++ sheetName sheet ++ [34%N] ++ js "."),
     Some sheet).
Proof.
  intros Hw Hne Hvalid Hnone. unfold updateSheet. rewrite Hw.
  destruct w as [|ch w']; [done|].
  rewrite Hvalid in *. cbn [toISOString].
  destruct (findFirstDateMatch _ _) as [m|] eqn:Hfound; [|done].
  apply findFirstDateMatch_Some in Hfound. by apply Hnone in Hfound.
Qed.

(** C3. [findFirstDateMatch] returns the row and column, counted from 1,
    of the first cell in reading order that holds a date on the day of
    the target, both normalised to midnight; it returns null exactly when
    no cell does. *)
Theorem findFirstDateMatch_first_in_reading_order sheet targetDate :
  match findFirstDateMatch sheet targetDate with
  | Some m =>
      dateMatch sheet targetDate (row m) (column m)
      ∧ ∀ r' c', before r' c' (row m) (column m) → ¬ dateMatch sheet targetDate r' c'
  | None => ∀ r c, ¬ dateMatch sheet targetDate r c
  end.
Proof.
  destruct (findFirstDateMatch _ _) as [m|] eqn:Hfound;
    [|by apply findFirstDateMatch_None].
  split; [by apply findFirstDateMatch_Some|].
  unfold findFirstDateMatch in Hfound.
  apply scanRows_Some in Hfound
    as (i & j & rv & v & Hr & Hc & Hi & Hj & Hv & Hcols & Hrows).
  simpl in Hr. rewrite Hr, Hc. intros r' c' Hbefore Hm.
  pose proof Hm as (ms & Hcell & _).
  apply getDataRangeValues_covers in Hcell as (rv' & Hi' & Hj').
  apply isThatDay_dateMatch in Hm.
  destruct Hbefore as [Hlt | [-> Hlt]];
    apply Pos2Nat.inj_lt in Hlt; rewrite SuccNat2Pos.id_succ in Hlt.
  - assert (Pos.to_nat r' - 1 < i) as Hlt' by lia.
    by rewrite (Hrows _ _ _ _ Hlt' Hi' Hj') in Hm.
  - rewrite SuccNat2Pos.id_succ in Hi'. simpl in Hi'. rewrite Nat.sub_0_r in Hi'.
    rewrite Hi in Hi'. injection Hi' as <-.
    assert (Pos.to_nat c' - 1 < j) as Hlt' by lia.
    by rewrite (Hcols _ _ Hlt' Hj') in Hm.
Qed.

(** C4, as amended. Once the week is found at row R, the row of each
    entry is looked up in column 1 from row R to the last populated row,
    and it is the first row of that window whose label the text finder
    matches for the habit name, with the finder's own rule (the options
    of the finder are left at their defaults); the seven values go to
    that row, and an entry without such a row writes nothing. *)
Theorem habit_row_is_first_finder_match sheet d w items m :
  week_start_date d = Some w → w ≠ [] → data d = Some items →
  findFirstDateMatch sheet (parseMmDdYyyy w) = Some m →
  ∃ rowOf : HabitEntry → option positive,
    (∀ item, labelRow (textFinderMatches (habit item)) sheet (row m) (rowOf item))
    ∧ (updateSheet (Some sheet) (Some d)).2 =
        Some (foldl (λ s item, writeWindow s (rowOf item) (default [] (values item)))
                    sheet items).
Proof.
  intros Hw Hne Hitems Hm.
  exists (λ item, fst <$> findNext sheet (searchWindow sheet (row m)) (habit item)).
  split; [intros item; apply findNext_window|].
  by rewrite (updateSheet_found _ _ _ _ _ Hw Hne Hitems Hm).
Qed.

(** C9. With the week found, no entry makes the call fail: an entry whose
    name the window does not hold writes nothing, so that the sheet is the
    one obtained from the matched entries alone, each written at the row
    found for it on the sheet as it was; the text returned gives the
    number of matched entries and the week label. *)
Theorem updateSheet_skips_unmatched sheet d w items m :
  week_start_date d = Some w → w ≠ [] → data d = Some items →
  findFirstDateMatch sheet (parseMmDdYyyy w) = Some m →
  let window := searchWindow sheet (row m) in
  let matched := List.filter (isMatched sheet window) items in
  updateSheet (Some sheet) (Some d) =
    (Return (js "Success! Updated " ++ String_nat (length matched)
             ++ js " habits for week of " ++ w),
     Some (foldl (writeEntry sheet window) sheet matched)).
Proof.
  intros Hw Hne Hitems Hm window matched.
  rewrite (updateSheet_found _ _ _ _ _ Hw Hne Hitems Hm).
  by rewrite foldl_writeEntry_matched.
Qed.

(** C10. With the week found at row R, a cell that [updateSheet] changes
    lies in columns 3 to 9, in a row from R to the last populated row, and
    that row is the one found for the habit name of some entry. *)
Theorem updateSheet_frame sheet d w m sheet' r c :
  week_start_date d = Some w → w ≠ [] →
  findFirstDateMatch sheet (parseMmDdYyyy w) = Some m →
  (updateSheet (Some sheet) (Some d)).2 = Some sheet' →
  cells sheet' !! (r, c) ≠ cells sheet !! (r, c) →
  inValueWindow c
  ∧ (row m ≤ r)%positive ∧ Pos.to_nat r ≤ getLastRow sheet
  ∧ ∃ item, item ∈ default [] (data d)
      ∧ findNext sheet (searchWindow sheet (row m)) (habit item) = Some (r, 1%positive).
Proof.
  intros Hw Hne Hm Hrun Hchanged.
  destruct (data d) as [items|] eqn:Hitems.
  - rewrite (updateSheet_found _ _ _ _ _ Hw Hne Hitems Hm) in Hrun.
    simpl in Hrun. injection Hrun as <-.
    destruct (foldl_writeEntry_lookup sheet (searchWindow sheet (row m)) items sheet r c)
      as [Heq | (Hc & item & habitCell & Hin & Hfind & <-)]; [done|].
    destruct (findNext_window sheet (row m) (habit item)) as [Hrow Hcol].
    rewrite Hfind in Hrow. destruct Hrow as (HR & Hlast & _).
    specialize (Hcol _ Hfind). destruct habitCell as [r' c']. simpl in *. subst c'.
    unfold inValueWindow. split_and!; [lia|lia|done|done|]. by exists item.
  - exfalso. apply Hchanged. revert Hrun. unfold updateSheet. rewrite Hw.
    destruct w as [|ch w']; [done|]. rewrite Hm, (anchor_valid _ _ _ Hm).
    rewrite getRange_window by by eapply anchor_populated.
    rewrite Hitems. simpl. by intros [= <-].
Qed.

(** C5. For an inner text that, white space apart, neither begins nor
    ends with a fence, as every JSON text does, the sanitizer leaves the
    same text, the inner text trimmed, whether the model wrapped it in a
    json fence, in a plain fence or not at all; so the three parse to the
    same value, or fail alike. *)
Theorem sanitizer_ignores_fences t :
  fenceFree t →
  cleanTextResponse t = trim t
  ∧ parse (cleanTextResponse (fencedJson t)) = parse (cleanTextResponse t)
  ∧ parse (cleanTextResponse (fenced t)) = parse (cleanTextResponse t).
Proof.
  intros [Hprefix Hsuffix].
  destruct (trim_split t) as (w1 & w2 & Ht & Hw1 & Hw2 & Hstart & Hend).
  remember (trim t) as core eqn:Hcore. clear Hcore. subst t.
  change (js "```") with ticks in *.
  rewrite cleanTextResponse_raw, cleanTextResponse_fencedJson, cleanTextResponse_fenced
    by done.
  done.
Qed.

(** ** The image payload *)

Lemma skipSubtype_run subtype rest :
  forallb isSubtypeChar subtype = true →
  skipSubtype (subtype ++ js ";base64," ++ rest) = js ";base64," ++ rest.
Proof.
  induction subtype as [|c subtype IH]; simpl; [done|].
  intros [-> Hrest]%andb_prop. by apply IH.
Qed.

Lemma replaceDataUriPrefix_strips subtype payload :
  subtype ≠ [] → forallb isSubtypeChar subtype = true →
  replaceDataUriPrefix (js "data:image/" ++ subtype ++ js ";base64," ++ payload) = payload.
Proof.
  intros Hne Hsub. unfold replaceDataUriPrefix. rewrite stripPrefix_app.
  destruct subtype as [|c subtype]; [done|]. cbn [app].
  simpl in Hsub. apply andb_prop in Hsub as [-> Hsub].
  by rewrite skipSubtype_run, stripPrefix_app.
Qed.

Lemma getType_string v : getType v = js "string" ↔ ∃ s, v = Some (JString s).
Proof.
  split; [|by intros [s ->]].
  destruct v as [[]|]; try (by intros [=]). eauto.
Qed.

Lemma unwrapped_not_string img :
  ¬ carriesString img → ∀ s, unwrapped (Some img) ≠ Some (JString s).
Proof.
  intros Hno s. destruct img as [| | | |elems|props]; try done.
  unfold unwrapped. cbn [isObject mbind option_bind getProp].
  cbn [carriesString] in Hno. unfold or_else.
  destruct (truthy (assoc (js "base64") props)) eqn:Hb; simpl.
  - rewrite Hb. intros Heq. apply Hno. left. eauto.
  - destruct (truthy (assoc (js "data") props)) eqn:Hd; simpl; [|done].
    intros Heq. apply Hno. right. eauto.
Qed.

Ltac run_handler :=
  repeat (unfold mbind, mret, Handler_bind, Handler_ret, log_, lift, throw, try_catch;
          simpl).

Opaque js String_nat.

Lemma normalizeImage_string s w :
  (normalizeImage (Some (JString s)) w).1 = Return (trim (replaceDataUriPrefix s)).
Proof.
  unfold normalizeImage. run_handler.
  by rewrite bool_decide_eq_true_2 by done.
Qed.

Lemma normalizeImage_unwraps img w :
  (normalizeImage img w).1 =
    match unwrapped img with
    | Some (JString s) => Return (trim (replaceDataUriPrefix s))
    | v => match img with
           | Some _ => Throw (wrongType v)
           | None => Throw (ETypeError (js "substring"))
           end
    end.
Proof.
  unfold normalizeImage, unwrapped.
  destruct img as [[| | | |elems|props]|]; run_handler;
    try (by rewrite ?bool_decide_eq_true_2 by done).
  set (v := or_else _ _). clearbody v.
  case_bool_decide as Hty; simpl.
  - by apply getType_string in Hty as [s ->].
  - by destruct v as [[]|].
Qed.

(** Every value of the image field that JSON can carry and that holds no
    string is refused with the type of what it unwraps to. *)
Lemma normalizeImage_rejects img w :
  ¬ carriesString img →
  (normalizeImage (Some img) w).1 = Throw (wrongType (unwrapped (Some img))).
Proof.
  intros Hno. rewrite normalizeImage_unwraps.
  pose proof (unwrapped_not_string img Hno) as Hns.
  destruct (unwrapped (Some img)) as [[]|]; try done. by destruct (Hns s).
Qed.

(** [doPost] answers a refused image with the error text and runs nothing
    of the normal processing. *)
Lemma doPost_rejects np body postData img w :
  JSON_parse body = Some postData →
  member (Some postData) (js "image") = Return (Some img) →
  ¬ carriesString img →
  (doPost np (Some body) w).1 =
    Return (js "Error: " ++ js "Error: " ++ js "base64Image has wrong type: "
            ++ getType (unwrapped (Some img)) ++ js " instead of string").
Proof.
  intros Hbody Himg Hno.
  unfold doPost, parse, try_catch, mbind, Handler_bind, mret, Handler_ret, lift.
  rewrite Hbody, Himg.
  pose proof (normalizeImage_rejects img (log_ (js "doPost:start") w).2 Hno) as Hrej.
  cbn [log_ fst snd] in *.
  destruct (normalizeImage _ _) as [[] w']; simpl in *; by inversion Hrej.
Qed.

(** C6, as amended. For every string that is not empty, the normalised
    image is the same whether the image field is the string itself or an
    object that holds it under [base64] or under [data]: the string
    without a data-URI prefix at its start, trimmed. The prefix that goes
    is [data:image/], one or more characters of [a-zA-Z0-9.+-], and
    [;base64,]. *)
Theorem normalizeImage_same_for_wrapped_string s w :
  s ≠ [] →
  (normalizeImage (Some (JString s)) w).1 = Return (trim (replaceDataUriPrefix s))
  ∧ (normalizeImage (Some (wrapBase64 s)) w).1 = (normalizeImage (Some (JString s)) w).1
  ∧ (normalizeImage (Some (wrapData s)) w).1 = (normalizeImage (Some (JString s)) w).1
  ∧ ∀ subtype payload,
      subtype ≠ [] → forallb isSubtypeChar subtype = true →
      replaceDataUriPrefix (js "data:image/" ++ subtype ++ js ";base64," ++ payload) = payload.
Proof.
  intros Hs. rewrite !normalizeImage_unwraps.
  assert (truthy (Some (JString s)) = true) as Htruthy.
  { simpl. by rewrite bool_decide_eq_false_2. }
  split_and!; [done| | |apply replaceDataUriPrefix_strips].
  - unfold unwrapped, wrapBase64, or_else. cbn [isObject mbind option_bind getProp assoc].
    rewrite bool_decide_eq_true_2 by done. by rewrite !Htruthy.
  - unfold unwrapped, wrapData, or_else. cbn [isObject mbind option_bind getProp assoc].
    rewrite (bool_decide_eq_false_2 (js "data" = js "base64")) by (by vm_compute).
    rewrite bool_decide_eq_true_2 by done.
    change (truthy undefined) with false. cbv iota. by rewrite !Htruthy.
Qed.

(** C7 at the input on which the code departs from it: a body without an
    image field. The dump of the diagnostic line reads [substring] on the
    undefined result of [JSON.stringify(undefined)]; the TypeError that
    this raises is what the request answers, and the error that reports
    the type is not reached. *)
Theorem doPost_absent_image np body props w :
  JSON_parse body = Some (JObject props) → assoc (js "image") props = None →
  doPost np (Some body) w =
    (Return (js "Error: " ++ exn_toString (ETypeError (js "substring"))),
     {| logRows := logRows w ++ [js "doPost:start"; js "doPost:RAW TYPE: " ++ js "undefined";
                                 js "doPost:ERROR: " ++ exn_toString (ETypeError (js "substring"))];
        weeklyView := weeklyView w |})
  ∧ exn_toString (ETypeError (js "substring")) ≠ exn_toString (wrongType undefined).
Proof.
  intros Hbody Himg. split.
  - unfold doPost, parse. run_handler. rewrite Hbody. simpl. rewrite Himg.
    unfold normalizeImage. run_handler.
    rewrite bool_decide_eq_false_2 by (by vm_compute). simpl.
    by rewrite <-!app_assoc.
  - unfold exn_toString, wrongType. by vm_compute.
Qed.

(** ** The answer of the model *)

Lemma member_defined v key :
  member v key = Return (v ≫= λ o, getProp o key)
  ∨ (∃ m, member v key = Throw (ETypeError m)) ∧ (v ≫= λ o, getProp o key) = None.
Proof. destruct v as [[]|]; simpl; eauto. Qed.

(** C8. When the body of the response parses, holds no error that is
    truthy, and the path candidates, 0, content, parts, 0, text does not
    lead to a string, [callGemini] throws: the runtime's TypeError for the
    member that could not be read. *)
Theorem callGemini_malformed base64Image habitNames jsonTypes json :
  JSON_parse (fetchContentText base64Image habitNames jsonTypes) = Some json →
  truthy (getProp json (js "error")) = false →
  textPath json = None →
  ∃ member,
    callGemini base64Image habitNames jsonTypes = Throw (ETypeError member).
Proof.
  intros Hparse Herror Hpath. unfold callGemini, readResponse, parse. rewrite Hparse.
  unfold textPath in Hpath. cbn [foldl] in Hpath.
  cbn [mbind completion_bind].
  destruct (member_defined (Some json) (js "error")) as [->|[[m ->] _]]; [|by eauto].
  cbn [mbind completion_bind option_bind]. rewrite Herror.
  repeat match goal with
  | |- context [member ?v ?key] =>
      destruct (member_defined v key) as [->|[[m ->] _]]; [|by eauto];
      cbn [mbind completion_bind]
  end.
  cbn [mbind option_bind] in *.
  match goal with
  | |- context [stringReceiver ?v _] => destruct v as [[]|]; try done; simpl; eauto
  end.
Qed.

(** The other side of C8: when the path leads to a text, [callGemini]
    parses what the sanitizer leaves of it. *)
Lemma readResponse_text contentText json text :
  JSON_parse contentText = Some json →
  truthy (getProp json (js "error")) = false →
  textPath json = Some text →
  readResponse contentText = parse (cleanTextResponse text).
Proof.
  intros Hparse Herror Hpath.
  assert (parse contentText = Return json) as Hp by (unfold parse; by rewrite Hparse).
  unfold readResponse. rewrite Hp.
  unfold textPath in Hpath. cbn [foldl] in Hpath.
  cbn [mbind completion_bind].
  destruct (member_defined (Some json) (js "error")) as [->|[[m Hm] _]].
  2: { by destruct json. }
  cbn [mbind completion_bind option_bind]. rewrite Herror.
  repeat match goal with
  | |- context [member ?v ?key] =>
      destruct (member_defined v key) as [->|[_ Hnone]];
      [cbn [mbind completion_bind]
      |cbn [mbind option_bind] in Hnone, Hpath; rewrite ?Hnone in Hpath; done]
  end.
  cbn [mbind option_bind] in *.
  match goal with
  | |- context [stringReceiver ?v _] => destruct v as [[]|]; try done
  end.
  by injection Hpath as ->.
Qed.

End Facts.

Transparent js String_nat.

(** * The theorems at work on the scenario *)

Section Scenario.
Import Example.
#[local] Existing Instance Example.host.


Lemma updateSheet_week_not_found_witness :
  week_start_date february = Some (js "02/02/2026")
  ∧ js "02/02/2026" ≠ []
  ∧ parseMmDdYyyy (js "02/02/2026") = Some 1769990400000%Z
  ∧ (∀ r c, ¬ dateMatch weekly (parseMmDdYyyy (js "02/02/2026")) r c)
  ∧ updateSheet (Some weekly) (Some february) =
      (Return (Ref.jsq "Error: Could not find week starting 02/02/2026 in sheet 'Weekly View'."),
       Some weekly).
Proof.
  assert (∀ r c, ¬ dateMatch weekly (parseMmDdYyyy (js "02/02/2026")) r c) as Hnone.
  { apply findFirstDateMatch_None. vm_compute. reflexivity. }
  split_and!; [reflexivity|by vm_compute|by vm_compute|exact Hnone|].
  exact (updateSheet_week_not_found weekly february (js "02/02/2026") 1769990400000%Z
           eq_refl ltac:(by vm_compute) ltac:(by vm_compute) Hnone).
Defined.

Lemma habit_row_is_first_finder_match_witness :
  week_start_date analysis = Some (js "01/05/2026")
  ∧ js "01/05/2026" ≠ []
  ∧ data analysis = Some [flossing; yoga; weight]
  ∧ findFirstDateMatch weekly (parseMmDdYyyy (js "01/05/2026"))
      = Some {| row := 10; column := 2 |}
  ∧ ∃ rowOf : HabitEntry → option positive,
      (∀ item, labelRow (textFinderMatches (habit item)) weekly 10 (rowOf item))
      ∧ (updateSheet (Some weekly) (Some analysis)).2 =
          Some (foldl (λ s item, writeWindow s (rowOf item) (default [] (values item)))
                      weekly [flossing; yoga; weight]).
Proof.
  split_and!; [reflexivity|by vm_compute|reflexivity|by vm_compute|].
  exact (habit_row_is_first_finder_match weekly analysis (js "01/05/2026")
           [flossing; yoga; weight] {| row := 10; column := 2 |}
           eq_refl ltac:(by vm_compute) eq_refl ltac:(by vm_compute)).
Defined.

(** The entry named run: no label is the text run, yet the finder matches
    the label Run (miles) of row 13, and the values go there. *)
Lemma habit_lookup_is_not_exact_text :
  ¬ labelRow (isExactText (js "run")) weekly 10
      (fst <$> findNext weekly window (js "run"))
  ∧ (updateSheet (Some weekly)
       (Some {| week_start_date := Some (js "01/05/2026"); data := Some [run] |})).1
      = Return (js "Success! Updated 1 habits for week of 01/05/2026").
Proof.
  split; [|by vm_compute].
  assert (findNext weekly window (js "run") = Some (13, 1)%positive) as ->
    by (by vm_compute).
  intros (_ & _ & Hexact & _). by vm_compute in Hexact.
Qed.

Lemma updateSheet_skips_unmatched_witness :
  week_start_date analysis = Some (js "01/05/2026")
  ∧ js "01/05/2026" ≠ []
  ∧ data analysis = Some [flossing; yoga; weight]
  ∧ findFirstDateMatch weekly (parseMmDdYyyy (js "01/05/2026"))
      = Some {| row := 10; column := 2 |}
  ∧ updateSheet (Some weekly) (Some analysis) =
      (Return (js "Success! Updated 2 habits for week of 01/05/2026"),
       Some (foldl (writeEntry weekly window) weekly [flossing; weight])).
Proof.
  split_and!; [reflexivity|by vm_compute|reflexivity|by vm_compute|].
  exact (updateSheet_skips_unmatched weekly analysis (js "01/05/2026")
           [flossing; yoga; weight] {| row := 10; column := 2 |}
           eq_refl ltac:(by vm_compute) eq_refl ltac:(by vm_compute)).
Defined.

Lemma updateSheet_frame_witness :
  ∃ sheet',
    (updateSheet (Some weekly) (Some analysis)).2 = Some sheet'
    ∧ cells sheet' !! (12, 4)%positive ≠ cells weekly !! (12, 4)%positive
    ∧ inValueWindow 4
    ∧ (10 ≤ 12)%positive ∧ 12 ≤ getLastRow weekly
    ∧ ∃ item, item ∈ [flossing; yoga; weight]
        ∧ findNext weekly window (habit item) = Some (12, 1)%positive.
Proof.
  destruct (updateSheet (Some weekly) (Some analysis)) as [result [sheet'|]] eqn:Hrun;
    [|by vm_compute in Hrun].
  exists sheet'. split; [reflexivity|].
  assert (cells sheet' !! (12, 4)%positive ≠ cells weekly !! (12, 4)%positive) as Hchanged.
  { vm_compute in Hrun. injection Hrun as _ <-. by vm_compute. }
  split; [exact Hchanged|].
  exact (updateSheet_frame weekly analysis (js "01/05/2026") {| row := 10; column := 2 |}
           sheet' 12 4 eq_refl ltac:(by vm_compute) ltac:(by vm_compute)
           ltac:(by rewrite Hrun) Hchanged).
Defined.

Lemma sanitizer_ignores_fences_witness :
  fenceFree (Ref.jsq "{'week_start_date':'01/05/2026','data':[]}")
  ∧ cleanTextResponse (fencedJson (Ref.jsq "{'week_start_date':'01/05/2026','data':[]}"))
      = Ref.jsq "{'week_start_date':'01/05/2026','data':[]}"
  ∧ parse (cleanTextResponse (fenced (Ref.jsq "{'week_start_date':'01/05/2026','data':[]}")))
      = Return (JObject [(js "week_start_date", JString (js "01/05/2026"));
                         (js "data", JArray [])]).
Proof.
  assert (fenceFree (Ref.jsq "{'week_start_date':'01/05/2026','data':[]}")) as Hfree
    by (by vm_compute).
  split; [exact Hfree|].
  destruct (sanitizer_ignores_fences _ Hfree) as (Hraw & Hjson & Hplain).
  split; [by vm_compute|]. rewrite Hplain. by vm_compute.
Defined.

Lemma normalizeImage_same_for_wrapped_string_witness :
  js "data:image/png;base64, iVBORw0KGgo= " ≠ []
  ∧ (normalizeImage (Some (wrapData (js "data:image/png;base64, iVBORw0KGgo= "))) emptyWorld).1
      = Return (js "iVBORw0KGgo=")
  ∧ (normalizeImage (Some (wrapBase64 (js "data:image/png;base64, iVBORw0KGgo= "))) emptyWorld).1
      = (normalizeImage (Some (JString (js "data:image/png;base64, iVBORw0KGgo= "))) emptyWorld).1.
Proof.
  assert (js "data:image/png;base64, iVBORw0KGgo= " ≠ []) as Hne by (by vm_compute).
  split; [exact Hne|].
  destruct (normalizeImage_same_for_wrapped_string _ emptyWorld Hne)
    as (Hbare & Hbase64 & Hdata & Hprefix).
  split; [|exact Hbase64].
  rewrite Hdata, Hbare. by vm_compute.
Defined.

(** The empty string: accepted as it is, refused when wrapped. *)
Lemma normalizeImage_empty_string_differs :
  (normalizeImage (Some (JString [])) emptyWorld).1 = Return []
  ∧ (normalizeImage (Some (wrapBase64 [])) emptyWorld).1
      = Throw (EError (js "base64Image has wrong type: null instead of string"))
  ∧ (normalizeImage (Some (wrapBase64 [])) emptyWorld).1
      ≠ (normalizeImage (Some (JString [])) emptyWorld).1.
Proof. split_and!; by vm_compute. Qed.

Lemma doPost_absent_image_witness :
  JSON_parse (js "{}") = Some (JObject [])
  ∧ assoc (js "image") [] = None
  ∧ (doPost (λ base64Image, mret (js "processed")) (Some (js "{}")) emptyWorld).1
      = Return (js "Error: TypeError: Cannot read properties of undefined (reading 'substring')").
Proof.
  split_and!; [by vm_compute|reflexivity|].
  destruct (doPost_absent_image (λ base64Image, mret (js "processed")) (js "{}") []
              emptyWorld ltac:(by vm_compute) eq_refl) as [-> _].
  by vm_compute.
Defined.

End Scenario.

Lemma callGemini_malformed_witness :
  @JSON_parse (Ref.host Example.malformed) Example.malformed
    = Some (JObject [(js "candidates", JArray [])])
  ∧ truthy (getProp (JObject [(js "candidates", JArray [])]) (js "error")) = false
  ∧ textPath (JObject [(js "candidates", JArray [])]) = None
  ∧ callGemini (H := Ref.host Example.malformed) (js "iVBORw0KGgo=") [] []
      = Throw (ETypeError (js "content")).
Proof.
  split_and!; [by vm_compute|reflexivity|reflexivity|].
  destruct (callGemini_malformed (H := Ref.host Example.malformed)
              (js "iVBORw0KGgo=") [] [] (JObject [(js "candidates", JArray [])])
              ltac:(by vm_compute) eq_refl eq_refl) as [member Hthrow].
  rewrite Hthrow. by vm_compute in Hthrow.
Defined.

(** The answer of the scenario goes through [callGemini]: the fence is
    removed and the text parsed. *)
Example callGemini_scenario :
  callGemini (H := Example.host) (js "iVBORw0KGgo=") [] [] =
    Return (JObject
      [(js "week_start_date", JString (js "01/05/2026"));
       (js "data",
        JArray [JObject [(js "habit", JString (js "Flossing"));
                         (js "values", JArray [JNumber (inject_Z 1); JNumber (inject_Z 0); JNull])]])]).
Proof. by vm_compute. Qed.

(** The scenario of the specification, end to end on the sheet: columns 3
    to 9 of the row of Flossing hold 1, 0 and five empty cells. *)
Example updateSheet_scenario :
  ∃ sheet',
    updateSheet (H := Example.host) (Some Example.weekly)
      (Some {| week_start_date := Some (js "01/05/2026"); data := Some [Example.flossing] |})
    = (Return (js "Success! Updated 1 habits for week of 01/05/2026"), Some sheet')
    ∧ (λ c, cells sheet' !! (12%positive, c)) <$> [3; 4; 5; 6; 7; 8; 9]%positive
      = [Some (CNumber (inject_Z 1)); Some (CNumber (inject_Z 0)); None; None; None; None; None].
Proof. eexists. split; [by vm_compute|by vm_compute]. Qed.

(** An image that is an array: refused with the type of what it unwraps
    to, and the normal processing is not run. *)
Example doPost_array_image :
  (doPost (H := Example.host) (λ base64Image, mret (js "processed"))
     (Some (Ref.jsq "{'image':[1,2]}")) Example.emptyWorld).1
  = Return (js "Error: Error: base64Image has wrong type: null instead of string").
Proof. by vm_compute. Qed.

(** Outside the fence-free texts the three forms can differ: an inner text
    that itself starts with a json fence is unwrapped when it comes raw,
    and left with the rest of its fence when it comes wrapped. *)
Example sanitizer_on_a_fenced_inner_text :
  cleanTextResponse (js "```json{}") = js "{}"
  ∧ cleanTextResponse (fencedJson (js "```json{}")) = js "json{}".
Proof. by vm_compute. Qed.
